(** * Tumbling-window extraction of the Wikipedia recent-changes feed

    A shallow embedding of [src/iv_wikipedia_etl.py]: the configuration
    dataclass [ApiConfig], the pipeline class [IvWikipediaData] with its
    methods [_get_api_params], [_fetch_tumbling_window_data],
    [_get_api_data] and [_save_to_duckdb], and the [__main__] block.

    Conventions.
    - Python [int] is [Z].  A naive [datetime] with whole seconds is the
      number of seconds since ordinal day 0 at midnight, kept inside the
      range the [datetime] module accepts; leaving the range is
      [OverflowError], as in CPython.
    - [str] is [string], read as ASCII text.
    - A [dict] (and a JSON object) is an association list in insertion order.
    - A pandas [DataFrame] is its list of column labels and its rows of
      cells; a missing cell ([NaN]) is [None].  Column dtypes are not part
      of the model.
    - Methods that log, call the network or assign [self.df] run in a small
      state-and-exception monad; the [while] loop takes a fuel argument. *)

From Stdlib Require Import ZArith List String Ascii Bool Lia.
Import ListNotations.
Set Warnings "-register-all,-abstract-large-number".
Local Open Scope string_scope.
Local Open Scope list_scope.
Local Open Scope Z_scope.

(** ** Exceptions and results *)

Inductive exn : Type :=
| SystemExit (msg : string)
| ValueError
| OverflowError
| KeyError (key : string)
| TypeError
| AttributeError
| JSONDecodeError
| ConnectionError
| DuckDBError.

(** [SystemExit] derives from [BaseException], every other one from
    [Exception]: an [except Exception] clause lets [SystemExit] through. *)
Definition is_Exception (e : exn) : bool :=
  match e with
  | SystemExit _ => false
  | _ => true
  end.

(** ** Calendar arithmetic of the [datetime] module *)

Module Calendar.

Record date : Type := mkdate { year : Z; month : Z; day : Z }.

Definition MINYEAR : Z := 1.
Definition MAXYEAR : Z := 9999.
Definition _MAXORDINAL : Z := 3652059.

Definition _is_leap (y : Z) : bool :=
  (y mod 4 =? 0) && (negb (y mod 100 =? 0) || (y mod 400 =? 0)).

Definition _DAYS_IN_MONTH (m : Z) : Z :=
  match m with
  | 1 => 31 | 2 => 28 | 3 => 31 | 4 => 30 | 5 => 31 | 6 => 30
  | 7 => 31 | 8 => 31 | 9 => 30 | 10 => 31 | 11 => 30 | 12 => 31
  | _ => -1
  end.

Definition _DAYS_BEFORE_MONTH (m : Z) : Z :=
  match m with
  | 1 => 0 | 2 => 31 | 3 => 59 | 4 => 90 | 5 => 120 | 6 => 151
  | 7 => 181 | 8 => 212 | 9 => 243 | 10 => 273 | 11 => 304 | 12 => 334
  | _ => -1
  end.

Definition _days_before_year (y : Z) : Z :=
  let y1 := y - 1 in y1 * 365 + y1 / 4 - y1 / 100 + y1 / 400.

Definition _days_in_month (y m : Z) : Z :=
  if (m =? 2) && _is_leap y then 29 else _DAYS_IN_MONTH m.

Definition _days_before_month (y m : Z) : Z :=
  _DAYS_BEFORE_MONTH m + (if (2 <? m) && _is_leap y then 1 else 0).

Definition _ymd2ord (y m d : Z) : Z :=
  _days_before_year y + _days_before_month y m + d.

Definition _DI400Y : Z := 146097.
Definition _DI100Y : Z := 36524.
Definition _DI4Y : Z := 1461.

Definition _ord2ymd (n0 : Z) : date :=
  let n := n0 - 1 in
  let n400 := n / _DI400Y in
  let n := n mod _DI400Y in
  let y := n400 * 400 + 1 in
  let n100 := n / _DI100Y in
  let n := n mod _DI100Y in
  let n4 := n / _DI4Y in
  let n := n mod _DI4Y in
  let n1 := n / 365 in
  let n := n mod 365 in
  let y := y + n100 * 100 + n4 * 4 + n1 in
  if (n1 =? 4) || (n100 =? 4) then mkdate (y - 1) 12 31
  else
    let leapyear := (n1 =? 3) && (negb (n4 =? 24) || (n100 =? 3)) in
    let m := Z.shiftr (n + 50) 5 in
    let preceding :=
      _DAYS_BEFORE_MONTH m + (if (2 <? m) && leapyear then 1 else 0) in
    if n <? preceding then
      let m' := m - 1 in
      let preceding' :=
        preceding
        - (_DAYS_IN_MONTH m' + (if (m' =? 2) && leapyear then 1 else 0)) in
      mkdate y m' (n - preceding' + 1)
    else mkdate y m (n - preceding + 1).

(** What the [date] constructor checks. *)
Definition valid_date (d : date) : bool :=
  (MINYEAR <=? year d) && (year d <=? MAXYEAR)
  && (1 <=? month d) && (month d <=? 12)
  && (1 <=? day d) && (day d <=? _days_in_month (year d) (month d)).

Definition toordinal (d : date) : Z := _ymd2ord (year d) (month d) (day d).

(** A [datetime] without microseconds: [ordinal * 86400 + second of day]. *)
Definition datetime : Type := Z.

Definition MIN_DATETIME : datetime := 86400.
Definition MAX_DATETIME : datetime := _MAXORDINAL * 86400 + 86399.

Definition in_range (t : Z) : bool :=
  (MIN_DATETIME <=? t) && (t <=? MAX_DATETIME).

(** [datetime.datetime.combine(d, datetime.time(0, 0, 0))] *)
Definition combine_midnight (d : date) : datetime := toordinal d * 86400.

(** [datetime.timedelta(seconds=s)]: the normalised day count is limited to
    nine digits. *)
Definition timedelta (seconds : Z) : exn + Z :=
  if Z.abs (seconds / 86400) <=? 999999999 then inr seconds
  else inl OverflowError.

(** [t + delta] and [t - delta] *)
Definition datetime_add (t : datetime) (delta : Z) : exn + datetime :=
  if in_range (t + delta) then inr (t + delta) else inl OverflowError.

Definition datetime_sub (t : datetime) (delta : Z) : exn + datetime :=
  datetime_add t (- delta).

(** *** [strptime(s, "%Y-%m-%d").date()]

    The format compiles to the regular expression
    [(\d\d\d\d)-(1[0-2]|0[1-9]|[1-9])-(3[01]|[12]\d|0[1-9]|[1-9]| [1-9])],
    matched at the start of the text; text left over after the match, a
    failed match and a day the month does not have all raise [ValueError]. *)

Definition code (c : ascii) : Z := Z.of_N (N_of_ascii c).

Definition between (c lo hi : ascii) : bool :=
  (code lo <=? code c) && (code c <=? code hi).

Definition is_digit (c : ascii) : bool := between c "0"%char "9"%char.

Definition digit_val (c : ascii) : Z := code c - 48.

Definition match_year (s : string) : option (Z * string) :=
  match s with
  | String a (String b (String c (String d rest))) =>
      if is_digit a && is_digit b && is_digit c && is_digit d
      then Some (digit_val a * 1000 + digit_val b * 100
                 + digit_val c * 10 + digit_val d, rest)
      else None
  | _ => None
  end.

Definition match_month (s : string) : option (Z * string) :=
  match s with
  | String a (String b rest) =>
      if Ascii.eqb a "1" && between b "0" "2" then Some (10 + digit_val b, rest)
      else if Ascii.eqb a "0" && between b "1" "9" then Some (digit_val b, rest)
      else if between a "1" "9" then Some (digit_val a, String b rest)
      else None
  | String a EmptyString =>
      if between a "1" "9" then Some (digit_val a, EmptyString) else None
  | EmptyString => None
  end.

Definition match_day (s : string) : option (Z * string) :=
  match s with
  | String a (String b rest) =>
      if Ascii.eqb a "3" && between b "0" "1" then Some (30 + digit_val b, rest)
      else if between a "1" "2" && is_digit b
           then Some (digit_val a * 10 + digit_val b, rest)
      else if Ascii.eqb a "0" && between b "1" "9" then Some (digit_val b, rest)
      else if between a "1" "9" then Some (digit_val a, String b rest)
      else if Ascii.eqb a " " && between b "1" "9" then Some (digit_val b, rest)
      else None
  | String a EmptyString =>
      if between a "1" "9" then Some (digit_val a, EmptyString) else None
  | EmptyString => None
  end.

Definition match_dash (s : string) : option string :=
  match s with
  | String a rest => if Ascii.eqb a "-" then Some rest else None
  | EmptyString => None
  end.

Definition strptime_date (s : string) : exn + date :=
  match match_year s with
  | Some (y, s1) =>
    match match_dash s1 with
    | Some s2 =>
      match match_month s2 with
      | Some (m, s3) =>
        match match_dash s3 with
        | Some s4 =>
          match match_day s4 with
          | Some (d, EmptyString) =>
              if valid_date (mkdate y m d) then inr (mkdate y m d)
              else inl ValueError
          | _ => inl ValueError
          end
        | None => inl ValueError
        end
      | None => inl ValueError
      end
    | None => inl ValueError
    end
  | None => inl ValueError
  end.

(** *** [t.strftime("%Y-%m-%dT%H:%M:%SZ")]

    Every field is written zero-padded; the year takes four digits (for
    years below 1000 the C library behind [%Y] may leave the zeros out). *)

Definition digit_char (n : Z) : ascii := ascii_of_N (Z.to_N (48 + n mod 10)).

Definition pad2 (n : Z) : string :=
  String (digit_char (n / 10)) (String (digit_char n) EmptyString).

Definition pad4 (n : Z) : string :=
  String (digit_char (n / 1000)) (String (digit_char (n / 100)) (pad2 n)).

Definition strftime (t : datetime) : string :=
  let d := _ord2ymd (t / 86400) in
  let s := t mod 86400 in
  (pad4 (year d) ++ "-" ++ pad2 (month d) ++ "-" ++ pad2 (day d) ++ "T"
   ++ pad2 (s / 3600) ++ ":" ++ pad2 (s mod 3600 / 60) ++ ":"
   ++ pad2 (s mod 60) ++ "Z")%string.

End Calendar.

Import Calendar.

Arguments strftime : simpl never.

(** ** Python values, JSON and dictionaries *)

Inductive pyval : Type :=
| PyStr (s : string)
| PyInt (n : Z).

Inductive json : Type :=
| JNull
| JBool (b : bool)
| JNum (n : Z)
| JStr (s : string)
| JArr (items : list json)
| JObj (fields : list (string * json)).

(** [d.get(k)] on an insertion-ordered dictionary *)
Fixpoint dict_get {V : Type} (d : list (string * V)) (k : string) : option V :=
  match d with
  | [] => None
  | (k', v) :: d' => if String.eqb k' k then Some v else dict_get d' k
  end.

(** [j[k]] for a string key [k] *)
Definition getitem (j : json) (k : string) : exn + json :=
  match j with
  | JObj fields =>
      match dict_get fields k with
      | Some v => inr v
      | None => inl (KeyError k)
      end
  | _ => inl TypeError
  end.

(** ** pandas *)

Module pd.

Definition cell : Type := option json.
Definition NaN : cell := None.

Record DataFrame : Type := mkDataFrame {
  columns : list string;
  data : list (list cell)
}.

(** [len(df)] *)
Definition len (df : DataFrame) : Z := Z.of_nat (List.length (data df)).

Definition mem (c : string) (cols : list string) : bool :=
  existsb (String.eqb c) cols.

(** the labels of [extra] that [cols] lacks, appended in their order *)
Fixpoint union (cols extra : list string) : list string :=
  match extra with
  | [] => cols
  | c :: extra' => if mem c cols then union cols extra'
                   else union (cols ++ [c]) extra'
  end.

(** the cell of a row under label [c]; [NaN] when the label is absent *)
Fixpoint row_get (cols : list string) (row : list cell) (c : string) : cell :=
  match cols, row with
  | k :: cols', v :: row' => if String.eqb k c then v else row_get cols' row' c
  | _, _ => NaN
  end.

Definition reindex (cols : list string) (row : list cell)
    (cols' : list string) : list cell :=
  map (row_get cols row) cols'.

(** [df[c]] as a list, all [NaN] when [df] has no such column *)
Definition column_values (df : DataFrame) (c : string) : list cell :=
  map (fun row => row_get (columns df) row c) (data df).

(** [df.at[i, c]]; [None] stands for the [KeyError] of an unknown label or
    row *)
Definition at_ (df : DataFrame) (i : nat) (c : string) : option cell :=
  if mem c (columns df) then nth_error (column_values df c) i else None.

Definition as_record (j : json) : option (list (string * json)) :=
  match j with
  | JObj fields => Some fields
  | _ => None
  end.

Fixpoint all_records (rows : list json) : option (list (list (string * json))) :=
  match rows with
  | [] => Some []
  | j :: rows' =>
      match as_record j, all_records rows' with
      | Some r, Some rs => Some (r :: rs)
      | _, _ => None
      end
  end.

(** the keys of all records, each once, in order of first appearance *)
Definition record_keys (recs : list (list (string * json))) : list string :=
  fold_left (fun cols r => union cols (map fst r)) recs [].

Definition from_records (recs : list (list (string * json))) : DataFrame :=
  let cols := record_keys recs in
  mkDataFrame cols (map (fun r => map (dict_get r) cols) recs).

Section Constructor.

(** What [pd.DataFrame(x)] does when [x] is not a list whose first element
    is a dictionary (scalars, nested lists, a dictionary of columns, ...). *)
Variable DataFrame_other : json -> exn + DataFrame.

(** [pd.DataFrame(x)].  A list of dictionaries becomes one row per
    dictionary, with the union of the keys as columns; an element without
    [.keys()] after a first dictionary raises [AttributeError]. *)
Definition DataFrame_of (x : json) : exn + DataFrame :=
  match x with
  | JArr [] => inr (mkDataFrame [] [])
  | JArr (JObj f :: rows) =>
      match all_records (JObj f :: rows) with
      | Some recs => inr (from_records recs)
      | None => inl AttributeError
      end
  | _ => DataFrame_other x
  end.

End Constructor.

(** [pd.concat([a, b], ignore_index=True)] *)
Definition concat (a b : DataFrame) : DataFrame :=
  let cols := union (columns a) (columns b) in
  mkDataFrame cols
    (map (fun row => reindex (columns a) row cols) (data a)
     ++ map (fun row => reindex (columns b) row cols) (data b)).

End pd.

(** ** The HTTP transport *)

Definition Params : Type := list (string * pyval).

Record Response : Type := mkResponse {
  status_code : Z;
  text : string;
  (** the value of [response.json()] *)
  json_ : exn + json
}.

(** ** Logging *)

Inductive level : Type := DEBUG | INFO | WARNING | ERROR | CRITICAL.

(** One constructor per logging call of the program. *)
Inductive message : Type :=
| MsgStarted
| MsgParam (p : Params)
| MsgWindowStart (rcend_str : string)
| MsgWindowEnd (rcstart_str : string)
| MsgWindowRecords (n : Z)
| MsgTotalRecords (n : Z)
| MsgRequestFailed (status : Z)
| MsgResponseText (body : string)
| MsgSaved (full_table_name : string)
| MsgCompleted
| MsgError (e : exn).

Definition LogRecord : Type := (level * message)%type.

(** ** The analytical store *)

Record Database : Type := mkDatabase {
  schemas : list string;
  tables : list (string * list (list pd.cell))
}.

Definition Store : Type := list (string * Database).

(** ** Configuration *)

Record ApiConfig : Type := mkApiConfig {
  base_url : string;
  limit : Z;
  tumbling_window_size : Z
}.

(** [ApiConfig()] *)
Definition default_ApiConfig : ApiConfig :=
  mkApiConfig "https://en.wikipedia.org/w/api.php" 500 30.

(** ** Program state and its monad *)

Record State : Type := mkState {
  (** [self.df] *)
  df : pd.DataFrame;
  (** the requests sent so far, oldest first *)
  calls : list Params;
  (** the records passed to the module's logger so far, oldest first; what
      the handlers that [PipelineLogger] installs do with them (the console,
      and the log file, which [setup_logger] removes when the program
      starts) is not part of the state *)
  log : list LogRecord;
  store : Store
}.

Inductive result (A : Type) : Type :=
| Ok (a : A)
| Raise (e : exn)
| OutOfFuel.
Arguments Ok {A} a.
Arguments Raise {A} e.
Arguments OutOfFuel {A}.

Definition M (A : Type) : Type := State -> result A * State.

Definition ret {A} (a : A) : M A := fun st => (Ok a, st).

Definition bind {A B} (m : M A) (k : A -> M B) : M B :=
  fun st =>
    match m st with
    | (Ok a, st') => k a st'
    | (Raise e, st') => (Raise e, st')
    | (OutOfFuel, st') => (OutOfFuel, st')
    end.

Definition raise {A} (e : exn) : M A := fun st => (Raise e, st).

Definition out_of_fuel {A} : M A := fun st => (OutOfFuel, st).

Definition lift {A} (r : exn + A) : M A :=
  match r with
  | inr a => ret a
  | inl e => raise e
  end.

Notation "x <- m ;; k" := (bind m (fun x => k))
  (at level 61, m at next level, right associativity).
Notation "m ;;; k" := (bind m (fun _ => k))
  (at level 61, right associativity).

Definition logger (lv : level) (msg : message) : M unit :=
  fun st => (Ok tt, mkState (df st) (calls st) (log st ++ [(lv, msg)]) (store st)).

Definition get_df : M pd.DataFrame := fun st => (Ok (df st), st).

Definition set_df (d : pd.DataFrame) : M unit :=
  fun st => (Ok tt, mkState d (calls st) (log st) (store st)).

Definition get_store : M Store := fun st => (Ok (store st), st).

Definition set_store (s : Store) : M unit :=
  fun st => (Ok tt, mkState (df st) (calls st) (log st) s).

(** [try: body  except Exception as e: handler(e)] *)
Definition try_except_Exception (body : M unit) (handler : exn -> M unit)
    : M unit :=
  fun st =>
    match body st with
    | (Raise e, st') =>
        if is_Exception e then handler e st' else (Raise e, st')
    | other => other
    end.

(** ** DuckDB statements

    The four statements of [_save_to_duckdb] on a store of databases by
    path and tables by name.  A database is the path as given and a table
    the name as written in the statement; a cell is stored as the frame has
    it.  What DuckDB does beyond that (opening a file that cannot be opened,
    names that differ in case only, conversion of a cell to the declared
    column type) is not modelled. *)

Module duckdb.

Fixpoint assoc_remove {V : Type} (k : string) (l : list (string * V))
    : list (string * V) :=
  match l with
  | [] => []
  | (k', v) :: l' =>
      if String.eqb k' k then assoc_remove k l' else (k', v) :: assoc_remove k l'
  end.

Definition assoc_set {V : Type} (k : string) (v : V) (l : list (string * V))
    : list (string * V) :=
  assoc_remove k l ++ [(k, v)].

(** [duckdb.connect(path)] opens the database file, creating it when absent *)
Definition connect (path : string) (s : Store) : Database :=
  match dict_get s path with
  | Some db => db
  | None => mkDatabase [] []
  end.

(** [CREATE SCHEMA IF NOT EXISTS schema] *)
Definition create_schema (schema : string) (db : Database) : Database :=
  if pd.mem schema (schemas db) then db
  else mkDatabase (schemas db ++ [schema]) (tables db).

(** [DROP TABLE IF EXISTS name] *)
Definition drop_table (name : string) (db : Database) : Database :=
  mkDatabase (schemas db) (assoc_remove name (tables db)).

(** [CREATE TABLE IF NOT EXISTS name (...)] *)
Definition create_table (name : string) (db : Database) : Database :=
  match dict_get (tables db) name with
  | Some _ => db
  | None => mkDatabase (schemas db) (tables db ++ [(name, [])])
  end.

(** [INSERT INTO name SELECT cols FROM frame]: a column the frame lacks is a
    binder error. *)
Definition insert_select (name : string) (cols : list string)
    (frame : pd.DataFrame) (db : Database) : exn + Database :=
  if forallb (fun c => pd.mem c (pd.columns frame)) cols then
    let rows :=
      map (fun row => pd.reindex (pd.columns frame) row cols) (pd.data frame) in
    let old := match dict_get (tables db) name with
               | Some r => r
               | None => []
               end in
    inr (mkDatabase (schemas db) (assoc_set name (old ++ rows) (tables db)))
  else inl DuckDBError.

End duckdb.

(** ** The pipeline class *)

Module IvWikipediaData.

(** [_create_empty_dataframe]: the thirteen columns, no rows *)
Definition _create_empty_dataframe : pd.DataFrame :=
  pd.mkDataFrame
    ["type"; "ns"; "title"; "user"; "userid"; "bot"; "oldlen"; "newlen";
     "timestamp"; "comment"; "minor"; "anon"; "new"]
    [].

(** [__init__]: [config or ApiConfig()], and the empty frame in [self.df].
    A dataclass instance is always truthy, so only [None] is replaced. *)
Definition __init__ (config : option ApiConfig) : M ApiConfig :=
  set_df _create_empty_dataframe ;;;
  ret (match config with
       | Some c => c
       | None => default_ApiConfig
       end).

Definition _get_api_params (config : ApiConfig) (rcstart rcend : string)
    : Params :=
  [ ("action", PyStr "query");
    ("format", PyStr "json");
    ("list", PyStr "recentchanges");
    ("rcstart", PyStr rcstart);
    ("rcend", PyStr rcend);
    ("rclimit", PyInt (limit config));
    ("rcprop", PyStr "title|timestamp|userid|user|comment|flags|sizes") ].

Definition saturated_msg : string :=
  "Error: reached max records for tumbling window".

Definition request_failed_msg (body : string) : string :=
  ("API request failed: " ++ body)%string.

Section Methods.

(** The remote side: the answer of [requests.get(url, params=params)], which
    may depend on how many requests were sent before ([inl]: the call
    raises). *)
Variable requests_get : nat -> string -> Params -> exn + Response.

Variable DataFrame_other : json -> exn + pd.DataFrame.

Variable config : ApiConfig.

Definition http_get (url : string) (params : Params) : M Response :=
  fun st =>
    (match requests_get (List.length (calls st)) url params with
     | inr r => Ok r
     | inl e => Raise e
     end,
     mkState (df st) (calls st ++ [params]) (log st) (store st)).

(** [response.json()['query']['recentchanges']] *)
Definition recentchanges (response : Response) : exn + json :=
  match json_ response with
  | inr j =>
      match getitem j "query" with
      | inr q => getitem q "recentchanges"
      | inl e => inl e
      end
  | inl e => inl e
  end.

Definition _fetch_tumbling_window_data (start_time end_time : string)
    : M pd.DataFrame :=
  let params := _get_api_params config end_time start_time in
  logger INFO (MsgParam params) ;;;
  response <- http_get (base_url config) params ;;
  if negb (status_code response =? 200) then
    logger ERROR (MsgRequestFailed (status_code response)) ;;;
    logger ERROR (MsgResponseText (text response)) ;;;
    raise (SystemExit (request_failed_msg (text response)))
  else
    edit_records <- lift (recentchanges response) ;;
    window_df <- lift (pd.DataFrame_of DataFrame_other edit_records) ;;
    logger INFO (MsgWindowRecords (pd.len window_df)) ;;;
    if pd.len window_df =? limit config
    then raise (SystemExit saturated_msg)
    else ret window_df.

(** The [while] loop of [_get_api_data]; [fuel] bounds the iterations. *)
Fixpoint window_loop (fuel : nat) (current_window_start_time end_time : datetime)
    : M unit :=
  match fuel with
  | O => out_of_fuel
  | S fuel' =>
    if current_window_start_time <? end_time then
      let rcend_str := strftime current_window_start_time in
      logger INFO (MsgWindowStart rcend_str) ;;;
      step <- lift (timedelta (tumbling_window_size config)) ;;
      current_window_start_time <- lift (datetime_add current_window_start_time step) ;;
      one <- lift (timedelta 1) ;;
      before <- lift (datetime_sub current_window_start_time one) ;;
      let current_window_end_time := Z.min before end_time in
      let rcstart_str := strftime current_window_end_time in
      logger INFO (MsgWindowEnd rcstart_str) ;;;
      window_df <- _fetch_tumbling_window_data rcend_str rcstart_str ;;
      self_df <- get_df ;;
      set_df (pd.concat self_df window_df) ;;;
      total <- get_df ;;
      logger INFO (MsgTotalRecords (pd.len total)) ;;;
      window_loop fuel' current_window_start_time end_time
    else ret tt
  end.

Definition _get_api_data (fuel : nat) (input_date : string) : M pd.DataFrame :=
  target_date <- lift (strptime_date input_date) ;;
  let start_time := combine_midnight target_date in
  day <- lift (timedelta 86400) ;;
  next_day <- lift (datetime_add start_time day) ;;
  one <- lift (timedelta 1) ;;
  end_time <- lift (datetime_sub next_day one) ;;
  window_loop fuel start_time end_time ;;;
  get_df.

Definition _save_to_duckdb (frame : pd.DataFrame)
    (database_path table_name schema : string) : M unit :=
  s <- get_store ;;
  let conn := duckdb.connect database_path s in
  let conn := duckdb.create_schema schema conn in
  set_store (duckdb.assoc_set database_path conn s) ;;;
  let full_table_name := (schema ++ "." ++ table_name)%string in
  let conn := duckdb.drop_table full_table_name conn in
  set_store (duckdb.assoc_set database_path conn s) ;;;
  let conn := duckdb.create_table full_table_name conn in
  set_store (duckdb.assoc_set database_path conn s) ;;;
  conn <- lift (duckdb.insert_select full_table_name
                  ["type"; "title"; "user"; "userid"; "timestamp"; "comment"]
                  frame conn) ;;
  set_store (duckdb.assoc_set database_path conn s) ;;;
  logger INFO (MsgSaved full_table_name).

End Methods.

(** The [__main__] block from its first logging call on (lines 259-281), for
    any configuration, date and target.  The two statements before it,
    [PipelineLogger()] and the binding of [logger], set up the handlers and
    pass no record to the logger. *)
Definition pipeline (requests_get : nat -> string -> Params -> exn + Response)
    (DataFrame_other : json -> exn + pd.DataFrame)
    (fuel : nat) (config : option ApiConfig)
    (input_date database_path table_name : string) : M unit :=
  logger INFO MsgStarted ;;;
  self_config <- __init__ config ;;
  try_except_Exception
    (frame <- _get_api_data requests_get DataFrame_other self_config fuel input_date ;;
     _save_to_duckdb frame database_path table_name "iv" ;;;
     logger INFO MsgCompleted)
    (fun e => logger ERROR (MsgError e)).

Definition main (requests_get : nat -> string -> Params -> exn + Response)
    (DataFrame_other : json -> exn + pd.DataFrame) (fuel : nat) : M unit :=
  pipeline requests_get DataFrame_other fuel
    (Some (mkApiConfig "https://en.wikipedia.org/w/api.php" 500 25))
    "2024-10-31" "..\data\wikipedia.db" "wiki_edits".

End IvWikipediaData.

(** ** The windows the loop visits

    The cursor arithmetic of the [while] loop on its own: the pair of bounds
    computed in each iteration, in order, and how the loop ends.
    [window_loop_exec] below shows that the loop is these windows, each
    logged, fetched and appended. *)

Module WindowPlanner.

(** [windowEnd] is the earlier bound ([rcend]), [windowStart] the later
    ([rcstart]). *)
Record WindowSpec : Type := mkWindow {
  windowEnd : datetime;
  windowStart : datetime
}.

Inductive plan_end : Type :=
| PlanDone
| PlanRaise (cursor : datetime) (e : exn)
| PlanNoFuel.

(** one iteration: the advanced cursor and the cursor minus one second *)
Definition advance (W : Z) (cursor : datetime) : exn + (datetime * datetime) :=
  match timedelta W with
  | inr step =>
    match datetime_add cursor step with
    | inr next =>
      match timedelta 1 with
      | inr one =>
        match datetime_sub next one with
        | inr before => inr (next, before)
        | inl e => inl e
        end
      | inl e => inl e
      end
    | inl e => inl e
    end
  | inl e => inl e
  end.

Fixpoint plan (W : Z) (fuel : nat) (cursor end_time : datetime)
    : list WindowSpec * plan_end :=
  match fuel with
  | O => ([], PlanNoFuel)
  | S fuel' =>
    if cursor <? end_time then
      match advance W cursor with
      | inr (next, before) =>
          let (ws, e) := plan W fuel' next end_time in
          (mkWindow cursor (Z.min before end_time) :: ws, e)
      | inl e => ([], PlanRaise cursor e)
      end
    else ([], PlanDone)
  end.

(** the day's first and last second, as [_get_api_data] computes them *)
Definition day_bounds (target_date : date) : exn + (datetime * datetime) :=
  let start_time := combine_midnight target_date in
  match timedelta 86400 with
  | inr day =>
    match datetime_add start_time day with
    | inr next_day =>
      match timedelta 1 with
      | inr one =>
        match datetime_sub next_day one with
        | inr end_time => inr (start_time, end_time)
        | inl e => inl e
        end
      | inl e => inl e
      end
    | inl e => inl e
    end
  | inl e => inl e
  end.

(** the windows planned for a date *)
Definition windows_of_day (W : Z) (fuel : nat) (target_date : date)
    : list WindowSpec :=
  match day_bounds target_date with
  | inr (start_time, end_time) => fst (plan W fuel start_time end_time)
  | inl _ => []
  end.

(** inclusive width in seconds *)
Definition width (w : WindowSpec) : Z := windowStart w - windowEnd w + 1.

(** second [t] lies in the inclusive range of [w] *)
Definition covers (w : WindowSpec) (t : datetime) : bool :=
  (windowEnd w <=? t) && (t <=? windowStart w).


Fixpoint contiguous (ws : list WindowSpec) : bool :=
  match ws with
  | w1 :: ((w2 :: _) as rest) =>
      (windowEnd w2 =? windowStart w1 + 1) && contiguous rest
  | _ => true
  end.

End WindowPlanner.

Import WindowPlanner.

Module Run.

Section Run.

Variable requests_get : nat -> string -> Params -> exn + Response.
Variable DataFrame_other : json -> exn + pd.DataFrame.
Variable config : ApiConfig.

(** the request sent for a window *)
Definition params_of (w : WindowSpec) : Params :=
  IvWikipediaData._get_api_params config
    (strftime (windowStart w)) (strftime (windowEnd w)).

(** one iteration of the loop for an already computed window *)
Definition window_body (w : WindowSpec) : M unit :=
  logger INFO (MsgWindowStart (strftime (windowEnd w))) ;;;
  logger INFO (MsgWindowEnd (strftime (windowStart w))) ;;;
  window_df <- IvWikipediaData._fetch_tumbling_window_data
                 requests_get DataFrame_other config
                 (strftime (windowEnd w)) (strftime (windowStart w)) ;;
  self_df <- get_df ;;
  set_df (pd.concat self_df window_df) ;;;
  total <- get_df ;;
  logger INFO (MsgTotalRecords (pd.len total)).

Fixpoint exec_plan (ws : list WindowSpec) (e : plan_end) : M unit :=
  match ws with
  | [] =>
      match e with
      | PlanDone => ret tt
      | PlanRaise cursor x =>
          logger INFO (MsgWindowStart (strftime cursor)) ;;; raise x
      | PlanNoFuel => out_of_fuel
      end
  | w :: ws' => window_body w ;;; exec_plan ws' e
  end.

(** what a fetch returns for a given answer of the transport *)
Definition batch_of (answer : exn + Response) : exn + pd.DataFrame :=
  match answer with
  | inl e => inl e
  | inr response =>
      if negb (status_code response =? 200)
      then inl (SystemExit (IvWikipediaData.request_failed_msg (text response)))
      else
        match IvWikipediaData.recentchanges response with
        | inl e => inl e
        | inr edit_records =>
            match pd.DataFrame_of DataFrame_other edit_records with
            | inl e => inl e
            | inr window_df =>
                if pd.len window_df =? limit config
                then inl (SystemExit IvWikipediaData.saturated_msg)
                else inr window_df
            end
        end
  end.

(** what a fetch logs after the parameters *)
Definition fetch_log (answer : exn + Response) : list LogRecord :=
  match answer with
  | inl e => []
  | inr response =>
      if negb (status_code response =? 200)
      then [(ERROR, MsgRequestFailed (status_code response));
            (ERROR, MsgResponseText (text response))]
      else
        match IvWikipediaData.recentchanges response with
        | inl e => []
        | inr edit_records =>
            match pd.DataFrame_of DataFrame_other edit_records with
            | inl e => []
            | inr window_df => [(INFO, MsgWindowRecords (pd.len window_df))]
            end
        end
  end.

(** the batches merged while the windows [ws] are fetched as requests number
    [n], [n+1], ..., and the exception that stopped the fetching, if any *)
Fixpoint batches (n : nat) (ws : list WindowSpec)
    : list pd.DataFrame * option exn :=
  match ws with
  | [] => ([], None)
  | w :: ws' =>
      match batch_of (requests_get n (base_url config) (params_of w)) with
      | inr b => let (bs, e) := batches (S n) ws' in (b :: bs, e)
      | inl e => ([], Some e)
      end
  end.

(** the windows planned for a date given as text; none when the text is not
    a date *)
Definition planned (fuel : nat) (input_date : string) : list WindowSpec :=
  match strptime_date input_date with
  | inr target_date => windows_of_day (tumbling_window_size config) fuel target_date
  | inl _ => []
  end.

Definition to_result {A : Type} (r : exn + A) : result A :=
  match r with
  | inr a => Ok a
  | inl e => Raise e
  end.

(** how a run over a plan ends once every fetch has succeeded *)
Definition plan_result (e : plan_end) : result unit :=
  match e with
  | PlanDone => Ok tt
  | PlanRaise _ x => Raise x
  | PlanNoFuel => OutOfFuel
  end.

(** the number of requests sent while [ws] is fetched from request [n] on *)
Definition requests_sent (n : nat) (ws : list WindowSpec) : nat :=
  match batches n ws with
  | (bs, None) => List.length bs
  | (bs, Some _) => S (List.length bs)
  end.

End Run.

End Run.

(** ** The configuration and state a run starts from *)

(** [config or ApiConfig()] *)
Definition effective (config : option ApiConfig) : ApiConfig :=
  match config with
  | Some c => c
  | None => default_ApiConfig
  end.

(** the state in which [_get_api_data] starts inside the pipeline *)
Definition started (st : State) : State :=
  mkState IvWikipediaData._create_empty_dataframe (calls st)
    (log st ++ [(INFO, MsgStarted)]) (store st).

(** ** Sample servers and answers *)

Module Samples.

Definition api_url : string := "https://en.wikipedia.org/w/api.php".

(** a state before any request: no rows, no log, an empty store *)
Definition fresh : State :=
  mkState IvWikipediaData._create_empty_dataframe [] [] [].

(** the body of a successful answer carrying [rows] *)
Definition answer_with (rows : list json) : Response :=
  mkResponse 200 "{...}"
    (inr (JObj [("batchcomplete", JStr "");
                ("query", JObj [("recentchanges", JArr rows)])])).

Definition server_with (rows : list json)
    : nat -> string -> Params -> exn + Response :=
  fun _ _ _ => inr (answer_with rows).

(** the [k]-th request (counting from 0) is answered with [status]; all
    others succeed with no rows *)
Definition server_failing_at (k : nat) (status : Z) (body : string)
    : nat -> string -> Params -> exn + Response :=
  fun n _ _ =>
    if Nat.eqb n k then inr (mkResponse status body (inl JSONDecodeError))
    else inr (answer_with []).

Definition no_other : json -> exn + pd.DataFrame := fun _ => inl ValueError.

Definition edit (title user : string) (userid : Z) : json :=
  JObj [("type", JStr "edit"); ("ns", JNum 0); ("title", JStr title);
        ("user", JStr user); ("userid", JNum userid);
        ("oldlen", JNum 10); ("newlen", JNum 12);
        ("timestamp", JStr "2024-10-31T00:00:07Z"); ("comment", JStr "")].

(** a row without [userid] *)
Definition edit_without_userid : json :=
  JObj [("type", JStr "edit"); ("ns", JNum 0); ("title", JStr "Main Page");
        ("user", JStr "192.0.2.1"); ("anon", JStr "");
        ("timestamp", JStr "2024-10-31T00:00:09Z")].

Definition oct31 : date := mkdate 2024 10 31.

(** 2024-10-31 00:00:00 and 23:59:59 *)
Definition oct31_start : datetime := combine_midnight oct31.
Definition oct31_end : datetime := oct31_start + 86399.

(** the default handed to [last] *)
Definition no_window : WindowSpec := mkWindow 0 0.

End Samples.

(** ** More sample servers *)

Module MoreSamples.

(** the API's way of reporting a bad request: status 200 and an [error]
    object in place of [query] *)
Definition api_error : Response :=
  mkResponse 200 "{...}"
    (inr (JObj [("error", JObj [("code", JStr "badvalue")]);
                ("servedby", JStr "mw-api")])).

(** the [k]-th request (counting from 0) gets [answer]; all others succeed
    with no rows *)
Definition server_answering_at (k : nat) (answer : exn + Response)
    : nat -> string -> Params -> exn + Response :=
  fun n _ _ => if Nat.eqb n k then answer else inr (Samples.answer_with []).

End MoreSamples.

(** ** Reading the store, and the shape of a frame *)

(** the columns [_save_to_duckdb] selects *)
Definition saved_columns : list string :=
  ["type"; "title"; "user"; "userid"; "timestamp"; "comment"].

(** the rows of table [name] in the database at [path]; [None] when the
    table does not exist *)
Definition table_of (s : Store) (path name : string)
    : option (list (list pd.cell)) :=
  dict_get (tables (duckdb.connect path s)) name.

(** the rows [SELECT saved_columns FROM frame] yields *)
Definition projected (frame : pd.DataFrame) : list (list pd.cell) :=
  map (fun row => pd.reindex (pd.columns frame) row saved_columns)
    (pd.data frame).

(** every row has one cell per column *)
Definition rectangular (frame : pd.DataFrame) : Prop :=
  Forall (fun row => List.length row = List.length (pd.columns frame))
    (pd.data frame).

(** ** The older variant of the pipeline, [src/python/iv_wikipedia_etl.py]

    [WikiConfig] has the fields and defaults of [ApiConfig], and
    [_get_api_params], [__init__] and [_create_empty_dataframe] have the
    bodies of their namesakes in [IvWikipediaData]; they are shared here.
    The log record of the running total stands for the variant's
    ["Current total size"] line. *)

Module IvWikipediaAnalytics.

Definition saturated_msg : string := "Error: reached max records".

Section Methods.

Variable requests_get : nat -> string -> Params -> exn + Response.
Variable DataFrame_other : json -> exn + pd.DataFrame.
Variable config : ApiConfig.

Definition _fetch_window_data (start_time end_time : string)
    : M pd.DataFrame :=
  let params := IvWikipediaData._get_api_params config end_time start_time in
  response <- IvWikipediaData.http_get requests_get (base_url config) params ;;
  if negb (status_code response =? 200) then
    logger ERROR (MsgRequestFailed (status_code response)) ;;;
    logger ERROR (MsgResponseText (text response)) ;;;
    raise (SystemExit (IvWikipediaData.request_failed_msg (text response)))
  else
    edit_records <- lift (IvWikipediaData.recentchanges response) ;;
    window_df <- lift (pd.DataFrame_of DataFrame_other edit_records) ;;
    if pd.len window_df =? limit config
    then raise (SystemExit saturated_msg)
    else ret window_df.

Fixpoint window_loop (fuel : nat) (current_window_start_time end_time : datetime)
    : M unit :=
  match fuel with
  | O => out_of_fuel
  | S fuel' =>
    if current_window_start_time <? end_time then
      let rcend_str := strftime current_window_start_time in
      logger INFO (MsgWindowStart rcend_str) ;;;
      step <- lift (timedelta (tumbling_window_size config)) ;;
      current_window_start_time <- lift (datetime_add current_window_start_time step) ;;
      one <- lift (timedelta 1) ;;
      before <- lift (datetime_sub current_window_start_time one) ;;
      let current_window_end_time := Z.min before end_time in
      let rcstart_str := strftime current_window_end_time in
      logger INFO (MsgWindowEnd rcstart_str) ;;;
      window_df <- _fetch_window_data rcend_str rcstart_str ;;
      self_df <- get_df ;;
      set_df (pd.concat self_df window_df) ;;;
      total <- get_df ;;
      logger INFO (MsgTotalRecords (pd.len total)) ;;;
      window_loop fuel' current_window_start_time end_time
    else ret tt
  end.

Definition get_api_data (fuel : nat) (input_date : string) : M pd.DataFrame :=
  target_date <- lift (strptime_date input_date) ;;
  let start_time := combine_midnight target_date in
  day <- lift (timedelta 86400) ;;
  next_day <- lift (datetime_add start_time day) ;;
  one <- lift (timedelta 1) ;;
  end_time <- lift (datetime_sub next_day one) ;;
  window_loop fuel start_time end_time ;;;
  get_df.

End Methods.

(** The [__main__] block, for any configuration and date.  It calls
    [save_to_duckdb] without the [df] argument, which is a [TypeError]
    before the method body runs; the handler logs at level INFO. *)
Definition pipeline (requests_get : nat -> string -> Params -> exn + Response)
    (DataFrame_other : json -> exn + pd.DataFrame)
    (fuel : nat) (config : option ApiConfig) (input_date : string) : M unit :=
  self_config <- IvWikipediaData.__init__ config ;;
  try_except_Exception
    (frame <- get_api_data requests_get DataFrame_other self_config fuel input_date ;;
     raise TypeError)
    (fun e => logger INFO (MsgError e)).

Definition main (requests_get : nat -> string -> Params -> exn + Response)
    (DataFrame_other : json -> exn + pd.DataFrame) (fuel : nat) : M unit :=
  pipeline requests_get DataFrame_other fuel
    (Some (mkApiConfig "https://en.wikipedia.org/w/api.php" 500 30))
    "2024-10-31".

End IvWikipediaAnalytics.

(** two states that differ in their logs only *)
Definition same_data (st1 st2 : State) : Prop :=
  df st1 = df st2 /\ calls st1 = calls st2 /\ store st1 = store st2.

(** two outcomes that agree up to the wording of the saturation error *)
Definition same_outcome {A : Type} (r1 r2 : result A) : Prop :=
  match r1 with
  | Ok a => r2 = Ok a
  | OutOfFuel => r2 = OutOfFuel
  | Raise e =>
      r2 = Raise e
      \/ (e = SystemExit IvWikipediaData.saturated_msg
          /\ r2 = Raise (SystemExit IvWikipediaAnalytics.saturated_msg))
  end.

(** a log record other than the one that reports the completed run *)
Definition before_completion (r : LogRecord) : Prop :=
  snd r <> MsgCompleted.

(** the last record of the log, if any *)
Definition last_record (st : State) : option LogRecord :=
  match rev (log st) with
  | [] => None
  | r :: _ => Some r
  end.

(** * Properties *)

(** ** Dates and their text *)

Example strptime_2024_10_31 :
  strptime_date "2024-10-31" = inr (mkdate 2024 10 31).
Proof. reflexivity. Qed.

Example strptime_day_out_of_month : strptime_date "2023-02-29" = inl ValueError.
Proof. reflexivity. Qed.

Example strftime_day_start :
  strftime (combine_midnight (mkdate 2024 10 31)) = "2024-10-31T00:00:00Z".
Proof. reflexivity. Qed.

Example strftime_leap_day :
  strftime (combine_midnight (mkdate 2024 2 29) + 86399) = "2024-02-29T23:59:59Z".
Proof. reflexivity. Qed.

Example strftime_last_second :
  strftime MAX_DATETIME = "9999-12-31T23:59:59Z".
Proof. reflexivity. Qed.

Example strftime_first_second : strftime MIN_DATETIME = "0001-01-01T00:00:00Z".
Proof. reflexivity. Qed.

(** ** Frames *)

Module pd_facts.

Import pd.

Lemma mem_In (c : string) (cols : list string) :
  mem c cols = true <-> In c cols.
Proof.
  unfold mem. rewrite existsb_exists. split.
  - intros (x & Hx & Heq). apply String.eqb_eq in Heq. subst. exact Hx.
  - intros H. exists c. split; [exact H | apply String.eqb_refl].
Qed.

Lemma row_get_absent (cols : list string) (row : list cell) (c : string) :
  mem c cols = false -> row_get cols row c = NaN.
Proof.
  revert row. induction cols as [| k cols IH]; intros row H; [reflexivity |].
  destruct row as [| v row]; [reflexivity |].
  cbn in *. rewrite String.eqb_sym.
  destruct (String.eqb c k); [discriminate |]. apply IH. exact H.
Qed.

(** A re-indexed row keeps every cell it had; the new labels hold [NaN]. *)
Lemma row_get_reindex (cols : list string) (row : list cell)
    (cols' : list string) (c : string) :
  row_get cols' (reindex cols row cols') c
  = if mem c cols' then row_get cols row c else NaN.
Proof.
  unfold reindex.
  induction cols' as [| k cols' IH]; [reflexivity |].
  cbn. rewrite (String.eqb_sym c k).
  destruct (String.eqb k c) eqn:E.
  - apply String.eqb_eq in E. subst. reflexivity.
  - exact IH.
Qed.

Lemma mem_union_l (cols extra : list string) (c : string) :
  mem c cols = true -> mem c (union cols extra) = true.
Proof.
  revert cols. induction extra as [| x extra IH]; intros cols H; [exact H |].
  cbn. destruct (mem x cols); apply IH; [exact H |].
  unfold mem in *. rewrite existsb_app, H. reflexivity.
Qed.

Lemma mem_union_r (cols extra : list string) (c : string) :
  mem c extra = true -> mem c (union cols extra) = true.
Proof.
  revert cols. induction extra as [| x extra IH]; intros cols H;
    [discriminate |].
  cbn in H. apply orb_true_iff in H. destruct H as [H | H].
  - apply String.eqb_eq in H. subst x. cbn.
    destruct (mem c cols) eqn:E.
    + apply mem_union_l. exact E.
    + apply mem_union_l. unfold mem. rewrite existsb_app. cbn.
      rewrite String.eqb_refl. apply orb_true_iff. right. reflexivity.
  - cbn. destruct (mem x cols); apply IH; exact H.
Qed.

Lemma mem_union_inv (cols extra : list string) (c : string) :
  mem c (union cols extra) = true ->
  mem c cols = true \/ mem c extra = true.
Proof.
  revert cols. induction extra as [| x extra IH]; intros cols H;
    [left; exact H |].
  cbn in H. cbn [mem existsb].
  destruct (mem x cols).
  - destruct (IH _ H) as [H1 | H1]; [left; exact H1 |].
    right. apply orb_true_iff. right. exact H1.
  - destruct (IH _ H) as [H1 | H1].
    + unfold mem in H1. rewrite existsb_app in H1. cbn in H1.
      rewrite orb_false_r in H1. apply orb_true_iff in H1.
      destruct H1 as [H1 | H1]; [left; exact H1 |].
      right. apply orb_true_iff. left. exact H1.
    + right. apply orb_true_iff. right. exact H1.
Qed.

Lemma row_get_union_l (a b : list string) (row : list cell) (c : string) :
  row_get (union a b) (reindex a row (union a b)) c = row_get a row c.
Proof.
  rewrite row_get_reindex.
  destruct (mem c (union a b)) eqn:E; [reflexivity |].
  symmetry. apply row_get_absent.
  destruct (mem c a) eqn:Ea; [| reflexivity].
  rewrite (mem_union_l a b c Ea) in E. discriminate.
Qed.

Lemma row_get_union_r (a b : list string) (row : list cell) (c : string) :
  row_get (union a b) (reindex b row (union a b)) c = row_get b row c.
Proof.
  rewrite row_get_reindex.
  destruct (mem c (union a b)) eqn:E; [reflexivity |].
  symmetry. apply row_get_absent.
  destruct (mem c b) eqn:Eb; [| reflexivity].
  rewrite (mem_union_r a b c Eb) in E. discriminate.
Qed.

(** Under every label, the concatenation holds the cells of the first frame
    followed by the cells of the second, in their order. *)
Lemma column_values_concat (a b : DataFrame) (c : string) :
  column_values (concat a b) c = column_values a c ++ column_values b c.
Proof.
  unfold column_values, concat. cbn [columns data].
  rewrite map_app, !map_map. f_equal; apply map_ext; intros row.
  - apply row_get_union_l.
  - apply row_get_union_r.
Qed.

Lemma len_concat (a b : DataFrame) : len (concat a b) = len a + len b.
Proof.
  unfold len, concat. cbn [data].
  rewrite length_app, !length_map. lia.
Qed.


Lemma column_values_fold (bs : list DataFrame) (a : DataFrame) (c : string) :
  column_values (fold_left concat bs a) c
  = column_values a c ++ flat_map (fun b => column_values b c) bs.
Proof.
  revert a. induction bs as [| b bs IH]; intros a; cbn.
  - rewrite app_nil_r. reflexivity.
  - rewrite IH, column_values_concat, <- app_assoc. reflexivity.
Qed.

Lemma len_fold (bs : list DataFrame) (a : DataFrame) :
  len (fold_left concat bs a) = len a + fold_right Z.add 0 (map len bs).
Proof.
  revert a. induction bs as [| b bs IH]; intros a; cbn.
  - lia.
  - rewrite IH, len_concat. lia.
Qed.

(** *** Frames built from records *)

Lemma all_records_length (rows : list json)
    (recs : list (list (string * json))) :
  all_records rows = Some recs -> List.length recs = List.length rows.
Proof.
  revert recs. induction rows as [| j rows IH]; intros recs; cbn.
  - intros H. inversion H. reflexivity.
  - destruct (as_record j); [| discriminate].
    destruct (all_records rows) as [rs |]; [| discriminate].
    intros H. inversion H. cbn. rewrite (IH rs eq_refl). reflexivity.
Qed.

Lemma DataFrame_of_records (other : json -> exn + DataFrame)
    (rows : list json) (recs : list (list (string * json))) :
  all_records rows = Some recs ->
  DataFrame_of other (JArr rows) = inr (from_records recs).
Proof.
  intros H. destruct rows as [| j rows].
  - cbn in H. inversion H. reflexivity.
  - destruct j; try (cbn in H; discriminate).
    cbn [DataFrame_of]. rewrite H. reflexivity.
Qed.


Lemma len_from_records (recs : list (list (string * json))) :
  len (from_records recs) = Z.of_nat (List.length recs).
Proof. unfold len, from_records. cbn. rewrite length_map. reflexivity. Qed.






End pd_facts.

(** ** The planned windows *)

Module plan_facts.

Lemma advance_inv (W : Z) (cursor next before : datetime) :
  advance W cursor = inr (next, before) ->
  next = cursor + W /\ before = cursor + W - 1.
Proof.
  unfold advance, timedelta, datetime_sub, datetime_add.
  destruct (Z.abs (W / 86400) <=? 999999999); [| discriminate].
  destruct (in_range (cursor + W)); [| discriminate].
  cbn.
  destruct (in_range (cursor + W + -1)); [| discriminate].
  intros H. inversion H. lia.
Qed.

(** one unfolding of [plan] at a cursor before the end *)
Ltac plan_step W fuel cursor end_time :=
  cbn [plan];
  let Hlt := fresh "Hlt" in
  let Hadv := fresh "Hadv" in
  let Hrest := fresh "Hrest" in
  destruct (cursor <? end_time) eqn:Hlt;
  [ apply Z.ltb_lt in Hlt;
    destruct (advance W cursor) as [? | [? ?]] eqn:Hadv;
    [ | apply advance_inv in Hadv; destruct Hadv; subst;
        destruct (plan W fuel (cursor + W) end_time) as [? ?] eqn:Hrest ]
  | apply Z.ltb_ge in Hlt ].

Lemma plan_head (W : Z) (fuel : nat) (cursor end_time : datetime)
    (w : WindowSpec) (ws : list WindowSpec) (pe : plan_end) :
  plan W fuel cursor end_time = (w :: ws, pe) ->
  windowEnd w = cursor /\ cursor < end_time.
Proof.
  destruct fuel as [| fuel]; [discriminate |].
  plan_step W fuel cursor end_time; intros H; inversion H; subst.
  cbn. lia.
Qed.



(** Each window starts one second after the one before it ends. *)
Lemma plan_contiguous (W : Z) (fuel : nat) (cursor end_time : datetime) :
  contiguous (fst (plan W fuel cursor end_time)) = true.
Proof.
  revert cursor.
  induction fuel as [| fuel IH]; intros cursor; [reflexivity |].
  plan_step W fuel cursor end_time; try reflexivity.
  specialize (IH (cursor + W)). rewrite Hrest in IH. cbn [fst] in *.
  destruct l as [| w2 rest]; [reflexivity |].
  apply plan_head in Hrest. destruct Hrest as [Hw2 Hlt2].
  change (contiguous (mkWindow cursor (Z.min (cursor + W - 1) end_time)
                        :: w2 :: rest))
    with ((windowEnd w2 =? Z.min (cursor + W - 1) end_time + 1)
          && contiguous (w2 :: rest)).
  rewrite IH, Hw2, andb_true_r. apply Z.eqb_eq. lia.
Qed.

(** The loop ends within [end_time - cursor + 1] iterations when the size
    is positive. *)
Lemma plan_terminates (W : Z) (fuel : nat) (cursor end_time : datetime) :
  0 < W ->
  (Z.to_nat (end_time - cursor) < fuel)%nat ->
  snd (plan W fuel cursor end_time) <> PlanNoFuel.
Proof.
  intros HW. revert cursor.
  induction fuel as [| fuel IH]; intros cursor Hfuel; [lia |].
  plan_step W fuel cursor end_time; cbn; try discriminate.
  specialize (IH (cursor + W)). rewrite Hrest in IH. apply IH. lia.
Qed.

(** More fuel does not change a plan that did not run out of it. *)
Lemma plan_fuel_mono (W : Z) (fuel fuel' : nat) (cursor end_time : datetime) :
  (fuel <= fuel')%nat ->
  snd (plan W fuel cursor end_time) <> PlanNoFuel ->
  plan W fuel' cursor end_time = plan W fuel cursor end_time.
Proof.
  revert fuel' cursor.
  induction fuel as [| fuel IH]; intros fuel' cursor Hle Hend;
    [cbn in Hend; congruence |].
  destruct fuel' as [| fuel']; [lia |].
  revert Hend.
  plan_step W fuel cursor end_time; cbn; intros Hend; try reflexivity.
  rewrite (IH fuel' (cursor + W)); [rewrite Hrest; reflexivity | lia |].
  rewrite Hrest. exact Hend.
Qed.

(** Without overflow the loop ends normally. *)
Lemma plan_done (W : Z) (fuel : nat) (cursor end_time : datetime) :
  0 < W ->
  MIN_DATETIME <= cursor ->
  end_time + W <= MAX_DATETIME ->
  (Z.to_nat (end_time - cursor) < fuel)%nat ->
  snd (plan W fuel cursor end_time) = PlanDone.
Proof.
  intros HW. revert cursor.
  induction fuel as [| fuel IH]; intros cursor Hmin Hmax Hfuel; [lia |].
  cbn [plan].
  destruct (cursor <? end_time) eqn:Hlt; [| reflexivity].
  apply Z.ltb_lt in Hlt.
  assert (Hadv : advance W cursor = inr (cursor + W, cursor + W - 1)).
  { unfold advance, timedelta, datetime_sub, datetime_add, in_range,
      MIN_DATETIME, MAX_DATETIME, _MAXORDINAL in *.
    assert (Hq : 0 <= W / 86400 <= 999999999).
    { split; [apply Z.div_pos; lia |].
      apply Z.div_le_upper_bound; lia. }
    replace (Z.abs (W / 86400) <=? 999999999) with true
      by (symmetry; apply Z.leb_le; lia).
    replace ((86400 <=? cursor + W) && (cursor + W <=? 3652059 * 86400 + 86399))
      with true by (symmetry; apply andb_true_iff; split; apply Z.leb_le; lia).
    cbn.
    replace ((86400 <=? cursor + W + -1)
             && (cursor + W + -1 <=? 315537983999))
      with true by (symmetry; apply andb_true_iff; split; apply Z.leb_le; lia).
    reflexivity. }
  rewrite Hadv.
  specialize (IH (cursor + W)).
  destruct (plan W fuel (cursor + W) end_time) as [ws pe]. cbn in *.
  apply IH; lia.
Qed.

Lemma mod_step (W a : Z) : (a - W) mod W = a mod W.
Proof.
  replace (a - W) with (a + (-1) * W) by lia.
  apply Z_mod_plus_full.
Qed.

(** Which seconds a completed plan covers: all from the cursor up to the
    second before [end_time], and [end_time] itself unless the size divides
    the distance from the cursor to [end_time]. *)
Lemma plan_coverage (W : Z) (fuel : nat) (cursor end_time : datetime)
    (ws : list WindowSpec) (t : datetime) :
  0 < W ->
  plan W fuel cursor end_time = (ws, PlanDone) ->
  existsb (fun w => covers w t) ws = true
  <-> cursor <= t /\ cursor < end_time
      /\ (t < end_time \/ (t = end_time /\ (end_time - cursor) mod W <> 0)).
Proof.
  intros HW. revert cursor ws.
  induction fuel as [| fuel IH]; intros cursor ws; [discriminate |].
  plan_step W fuel cursor end_time; intros H; inversion H; subst; clear H.
  - specialize (IH (cursor + W) l Hrest).
    cbn [existsb]. rewrite orb_true_iff, IH. unfold covers. cbn.
    rewrite andb_true_iff, Z.leb_le, Z.leb_le.
    replace (end_time - (cursor + W)) with (end_time - cursor - W) by lia.
    rewrite mod_step.
    destruct (Z_lt_ge_dec (cursor + W) end_time) as [Hn | Hn]; [lia |].
    destruct (Z.eq_dec (cursor + W) end_time) as [He | He].
    + replace (end_time - cursor) with W by lia.
      rewrite Z_mod_same_full. lia.
    + rewrite (Z.mod_small (end_time - cursor) W) by lia. lia.
  - cbn. split; [discriminate | lia].
Qed.

(** Where the last window of a completed plan ends. *)
Lemma plan_last_bound (W : Z) (fuel : nat) (cursor end_time : datetime)
    (ws : list WindowSpec) (d : WindowSpec) :
  0 < W ->
  plan W fuel cursor end_time = (ws, PlanDone) ->
  cursor < end_time ->
  windowStart (last ws d)
  = if (end_time - cursor) mod W =? 0 then end_time - 1 else end_time.
Proof.
  intros HW. revert cursor ws.
  induction fuel as [| fuel IH]; intros cursor ws; [discriminate |].
  plan_step W fuel cursor end_time; intros H Hc; inversion H; subst; clear H;
    [| lia].
  destruct l as [| w2 rest].
  - cbn.
    destruct fuel as [| fuel']; [discriminate |].
    revert Hrest. cbn [plan].
    destruct (cursor + W <? end_time) eqn:Hn.
    + destruct (advance W (cursor + W)) as [? | [nx ?]]; [discriminate |].
      destruct (plan W fuel' nx end_time). discriminate.
    + intros _. apply Z.ltb_ge in Hn.
      destruct (Z.eq_dec (cursor + W) end_time) as [He | He].
      * replace (end_time - cursor) with W by lia.
        rewrite Z_mod_same_full. cbn. lia.
      * rewrite (Z.mod_small (end_time - cursor) W) by lia.
        destruct (end_time - cursor =? 0) eqn:E0;
          [apply Z.eqb_eq in E0; lia | lia].
  - change (last (mkWindow cursor (Z.min (cursor + W - 1) end_time)
                    :: w2 :: rest) d)
      with (last (w2 :: rest) d).
    pose proof (plan_head _ _ _ _ _ _ _ Hrest) as [_ Hlt2].
    rewrite (IH (cursor + W) (w2 :: rest) Hrest Hlt2).
    replace (end_time - (cursor + W)) with (end_time - cursor - W) by lia.
    rewrite mod_step. reflexivity.
Qed.

(** Every window but the last is exactly [W] seconds wide, and no window is
    wider. *)
Lemma plan_widths (W : Z) (fuel : nat) (cursor end_time : datetime) :
  0 < W ->
  Forall (fun w => width w = W)
    (removelast (fst (plan W fuel cursor end_time)))
  /\ Forall (fun w => 1 <= width w <= W) (fst (plan W fuel cursor end_time)).
Proof.
  intros HW. revert cursor.
  induction fuel as [| fuel IH]; intros cursor; [cbn; split; constructor |].
  plan_step W fuel cursor end_time; cbn [fst]; try (cbn; split; constructor).
  specialize (IH (cursor + W)). rewrite Hrest in IH. cbn [fst] in IH.
  destruct IH as [IH1 IH2]. split.
  - destruct l as [| w2 rest]; [constructor |].
    change (removelast (mkWindow cursor (Z.min (cursor + W - 1) end_time)
                          :: w2 :: rest))
      with (mkWindow cursor (Z.min (cursor + W - 1) end_time)
              :: removelast (w2 :: rest)).
    constructor; [| exact IH1].
    apply plan_head in Hrest. unfold width. cbn. lia.
  - constructor; [| exact IH2]. unfold width. cbn. lia.
Qed.

End plan_facts.

(** ** The loop is its plan *)

Section RunLemmas.

Variable requests_get : nat -> string -> Params -> exn + Response.
Variable DataFrame_other : json -> exn + pd.DataFrame.
Variable config : ApiConfig.

Lemma fetch_eq (start_time end_time : string) (st : State) :
  let p := IvWikipediaData._get_api_params config end_time start_time in
  let answer := requests_get (List.length (calls st)) (base_url config) p in
  IvWikipediaData._fetch_tumbling_window_data
    requests_get DataFrame_other config start_time end_time st
  = (Run.to_result (Run.batch_of DataFrame_other config answer),
     mkState (df st) (calls st ++ [p])
       (log st ++ (INFO, MsgParam p) :: Run.fetch_log DataFrame_other answer)
       (store st)).
Proof.
  intros p answer.
  unfold IvWikipediaData._fetch_tumbling_window_data, bind, logger,
    IvWikipediaData.http_get.
  cbn [calls df log store].
  fold p. fold answer.
  unfold Run.batch_of, Run.fetch_log.
  destruct answer as [e | response]; cbn.
  - reflexivity.
  - destruct (status_code response =? 200); cbn.
    + destruct (IvWikipediaData.recentchanges response) as [e | j]; cbn.
      * reflexivity.
      * destruct (pd.DataFrame_of DataFrame_other j) as [e | w]; cbn.
        -- reflexivity.
        -- unfold bind, logger, raise, ret; cbn.
           rewrite <- app_assoc; cbn.
           destruct (pd.len w =? limit config); reflexivity.
    + unfold bind, logger, raise; cbn.
      rewrite <- !app_assoc. reflexivity.
Qed.

Lemma window_body_eq (w : WindowSpec) (st : State) :
  let p := Run.params_of config w in
  let answer := requests_get (List.length (calls st)) (base_url config) p in
  let seen :=
    log st
    ++ [(INFO, MsgWindowStart (strftime (windowEnd w)));
        (INFO, MsgWindowEnd (strftime (windowStart w)));
        (INFO, MsgParam p)]
    ++ Run.fetch_log DataFrame_other answer in
  Run.window_body requests_get DataFrame_other config w st
  = match Run.batch_of DataFrame_other config answer with
    | inr b =>
        (Ok tt,
         mkState (pd.concat (df st) b) (calls st ++ [p])
           (seen ++ [(INFO, MsgTotalRecords (pd.len (pd.concat (df st) b)))])
           (store st))
    | inl e => (Raise e, mkState (df st) (calls st ++ [p]) seen (store st))
    end.
Proof.
  intros p answer seen.
  unfold Run.window_body, bind at 1 2.
  unfold logger at 1 2. cbn [calls df log store].
  unfold bind at 1. rewrite fetch_eq. cbn [calls df log store].
  fold (Run.params_of config w). fold p. fold answer.
  assert (Hseen :
    (log st ++ [(INFO, MsgWindowStart (strftime (windowEnd w)))])
      ++ [(INFO, MsgWindowEnd (strftime (windowStart w)))]
      ++ (INFO, MsgParam p) :: Run.fetch_log DataFrame_other answer = seen).
  { unfold seen. rewrite <- !app_assoc. reflexivity. }
  rewrite <- app_assoc. rewrite app_assoc in Hseen.
  destruct (Run.batch_of DataFrame_other config answer) as [e | b]; cbn.
  - rewrite <- Hseen. rewrite <- !app_assoc. reflexivity.
  - unfold bind, get_df, set_df, logger; cbn.
    rewrite <- Hseen. rewrite <- !app_assoc. reflexivity.
Qed.

Lemma advance_eq {A : Type} (cursor : datetime) (k : datetime -> datetime -> M A)
    (st : State) :
  (step <- lift (timedelta (tumbling_window_size config)) ;;
   next <- lift (datetime_add cursor step) ;;
   one <- lift (timedelta 1) ;;
   before <- lift (datetime_sub next one) ;;
   k next before) st
  = match advance (tumbling_window_size config) cursor with
    | inr (next, before) => k next before st
    | inl e => (Raise e, st)
    end.
Proof.
  unfold advance, bind.
  destruct (timedelta (tumbling_window_size config)) as [e | step]; cbn;
    [reflexivity |].
  destruct (datetime_add cursor step) as [e | next]; cbn; [reflexivity |].
  destruct (datetime_sub next 1) as [e | before]; cbn; reflexivity.
Qed.

Lemma window_loop_exec (fuel : nat) (cursor end_time : datetime) (st : State) :
  IvWikipediaData.window_loop requests_get DataFrame_other config
    fuel cursor end_time st
  = Run.exec_plan requests_get DataFrame_other config
      (fst (plan (tumbling_window_size config) fuel cursor end_time))
      (snd (plan (tumbling_window_size config) fuel cursor end_time)) st.
Proof.
  revert cursor st.
  induction fuel as [| fuel IH]; intros cursor st; [reflexivity |].
  cbn [IvWikipediaData.window_loop plan].
  destruct (cursor <? end_time); [| reflexivity].
  unfold bind at 1. unfold logger at 1. cbn [df calls log store].
  rewrite advance_eq.
  destruct (advance (tumbling_window_size config) cursor)
    as [e | [next before]].
  - reflexivity.
  - destruct (plan (tumbling_window_size config) fuel next end_time)
      as [ws pe] eqn:Hplan.
    cbn [fst snd Run.exec_plan].
    unfold Run.window_body, bind, logger, get_df, set_df.
    cbn [df calls log store windowEnd windowStart].
    match goal with
    | |- context [IvWikipediaData._fetch_tumbling_window_data ?a ?b ?c ?d ?e ?s] =>
        destruct (IvWikipediaData._fetch_tumbling_window_data a b c d e s)
          as [[window_df | x |] st1]
    end; try reflexivity.
    cbn. rewrite IH, Hplan. reflexivity.
Qed.

Lemma exec_plan_cons (w : WindowSpec) (ws : list WindowSpec) (pe : plan_end)
    (st : State) :
  Run.exec_plan requests_get DataFrame_other config (w :: ws) pe st
  = match Run.window_body requests_get DataFrame_other config w st with
    | (Ok _, st') =>
        Run.exec_plan requests_get DataFrame_other config ws pe st'
    | (Raise e, st') => (Raise e, st')
    | (OutOfFuel, st') => (OutOfFuel, st')
    end.
Proof. reflexivity. Qed.

(** The state a run over a list of windows ends in: the frames merged, the
    requests sent, the store untouched, and the result. *)
Lemma exec_plan_spec (ws : list WindowSpec) (pe : plan_end) (st : State)
    (n : nat) :
  n = List.length (calls st) ->
  df (snd (Run.exec_plan requests_get DataFrame_other config ws pe st))
    = fold_left pd.concat
        (fst (Run.batches requests_get DataFrame_other config n ws)) (df st)
  /\ calls (snd (Run.exec_plan requests_get DataFrame_other config ws pe st))
    = calls st
      ++ map (Run.params_of config)
           (firstn (Run.requests_sent requests_get DataFrame_other config n ws) ws)
  /\ store (snd (Run.exec_plan requests_get DataFrame_other config ws pe st))
    = store st
  /\ fst (Run.exec_plan requests_get DataFrame_other config ws pe st)
    = match snd (Run.batches requests_get DataFrame_other config n ws) with
      | Some e => Raise e
      | None => Run.plan_result pe
      end.
Proof.
  revert st n.
  induction ws as [| w ws IH]; intros st n Hn.
  - unfold Run.requests_sent. cbn.
    rewrite app_nil_r.
    destruct pe; cbn; repeat split; reflexivity.
  - rewrite exec_plan_cons, window_body_eq. rewrite <- Hn.
    unfold Run.requests_sent. cbn [Run.batches].
    destruct (Run.batch_of DataFrame_other config
                (requests_get n (base_url config) (Run.params_of config w)))
      as [e | b].
    + cbn. repeat split; reflexivity.
    + match goal with
      | |- context [Run.exec_plan _ _ _ ws pe ?s] =>
          specialize (IH s (S n))
      end.
      cbn [calls df store] in IH.
      rewrite length_app in IH. cbn [List.length] in IH.
      specialize (IH ltac:(lia)).
      unfold Run.requests_sent in IH.
      destruct (Run.batches requests_get DataFrame_other config (S n) ws)
        as [bs err].
      destruct IH as (Hdf & Hcalls & Hstore & Hres).
      cbn [fst snd] in *.
      repeat split.
      * exact Hdf.
      * rewrite Hcalls. rewrite <- app_assoc.
        destruct err; reflexivity.
      * exact Hstore.
      * exact Hres.
Qed.

Lemma get_api_data_eq (fuel : nat) (input_date : string) (st : State) :
  IvWikipediaData._get_api_data requests_get DataFrame_other config
    fuel input_date st
  = match strptime_date input_date with
    | inl e => (Raise e, st)
    | inr target_date =>
      match day_bounds target_date with
      | inl e => (Raise e, st)
      | inr (start_time, end_time) =>
        let p := plan (tumbling_window_size config) fuel start_time end_time in
        match Run.exec_plan requests_get DataFrame_other config
                (fst p) (snd p) st with
        | (Ok _, st') => (Ok (df st'), st')
        | (Raise e, st') => (Raise e, st')
        | (OutOfFuel, st') => (OutOfFuel, st')
        end
      end
    end.
Proof.
  unfold IvWikipediaData._get_api_data, day_bounds, bind.
  destruct (strptime_date input_date) as [e | target_date]; cbn;
    [reflexivity |].
  destruct (datetime_add (combine_midnight target_date) 86400)
    as [e | next_day]; cbn; [reflexivity |].
  destruct (datetime_sub next_day 1) as [e | end_time]; cbn; [reflexivity |].
  rewrite window_loop_exec.
  destruct (Run.exec_plan _ _ _ _ _ st) as [[[] | e |] st']; reflexivity.
Qed.

Lemma batch_of_ok_inv (answer : exn + Response) (b : pd.DataFrame) :
  Run.batch_of DataFrame_other config answer = inr b ->
  exists response edit_records,
    answer = inr response
    /\ status_code response = 200
    /\ IvWikipediaData.recentchanges response = inr edit_records
    /\ pd.DataFrame_of DataFrame_other edit_records = inr b
    /\ pd.len b <> limit config.
Proof.
  unfold Run.batch_of.
  destruct answer as [e | response]; [discriminate |].
  destruct (status_code response =? 200) eqn:Hs; cbn; [| discriminate].
  destruct (IvWikipediaData.recentchanges response) as [e | j] eqn:Hj;
    [discriminate |].
  destruct (pd.DataFrame_of DataFrame_other j) as [e | w] eqn:Hw;
    [discriminate |].
  destruct (pd.len w =? limit config) eqn:Hl; [discriminate |].
  intros H. inversion H. subst w.
  exists response, j. repeat split; try assumption.
  - apply Z.eqb_eq. exact Hs.
  - apply Z.eqb_neq. exact Hl.
Qed.


(** every merged batch is the parsed answer to some request *)
Lemma batches_In (n : nat) (ws : list WindowSpec) (b : pd.DataFrame) :
  In b (fst (Run.batches requests_get DataFrame_other config n ws)) ->
  exists k w,
    Run.batch_of DataFrame_other config
      (requests_get k (base_url config) (Run.params_of config w)) = inr b.
Proof.
  revert n. induction ws as [| w ws IH]; intros n; cbn; [intros [] |].
  destruct (Run.batch_of DataFrame_other config
              (requests_get n (base_url config) (Run.params_of config w)))
    as [e | b0] eqn:Hb; cbn; [intros [] |].
  specialize (IH (S n)).
  destruct (Run.batches requests_get DataFrame_other config (S n) ws)
    as [bs err].
  cbn in *. intros [H | H].
  - subst b0. exists n, w. exact Hb.
  - apply IH. exact H.
Qed.

Lemma batches_complete (n : nat) (ws : list WindowSpec) :
  snd (Run.batches requests_get DataFrame_other config n ws) = None ->
  List.length (fst (Run.batches requests_get DataFrame_other config n ws))
  = List.length ws.
Proof.
  revert n. induction ws as [| w ws IH]; intros n; cbn; [reflexivity |].
  destruct (Run.batch_of DataFrame_other config
              (requests_get n (base_url config) (Run.params_of config w)))
    as [e | b0]; cbn; [discriminate |].
  specialize (IH (S n)).
  destruct (Run.batches requests_get DataFrame_other config (S n) ws)
    as [bs err].
  cbn in *. intros H. rewrite IH; [reflexivity | exact H].
Qed.

(** What [_get_api_data] leaves behind, whatever its outcome. *)
Lemma get_api_data_spec (fuel : nat) (input_date : string) (st : State) :
  let n := List.length (calls st) in
  let ws := Run.planned config fuel input_date in
  let out := IvWikipediaData._get_api_data requests_get DataFrame_other config
               fuel input_date st in
  df (snd out)
    = fold_left pd.concat
        (fst (Run.batches requests_get DataFrame_other config n ws)) (df st)
  /\ calls (snd out)
     = calls st
       ++ map (Run.params_of config)
            (firstn (Run.requests_sent requests_get DataFrame_other config n ws)
               ws)
  /\ store (snd out) = store st
  /\ (forall e,
        snd (Run.batches requests_get DataFrame_other config n ws) = Some e ->
        fst out = Raise e)
  /\ (forall frame,
        fst out = Ok frame ->
        frame = df (snd out)
        /\ calls (snd out) = calls st ++ map (Run.params_of config) ws).
Proof.
  intros n ws out. subst out ws.
  rewrite get_api_data_eq. unfold Run.planned, windows_of_day.
  destruct (strptime_date input_date) as [e | target_date].
  { unfold Run.requests_sent. cbn. rewrite app_nil_r.
    repeat split; try discriminate. }
  destruct (day_bounds target_date) as [e | [start_time end_time]].
  { unfold Run.requests_sent. cbn. rewrite app_nil_r.
    repeat split; try discriminate. }
  cbv zeta.
  pose proof (exec_plan_spec
                (fst (plan (tumbling_window_size config) fuel start_time end_time))
                (snd (plan (tumbling_window_size config) fuel start_time end_time))
                st n eq_refl) as (Hdf & Hcalls & Hstore & Hres).
  pose proof (batches_complete n
                (fst (plan (tumbling_window_size config) fuel start_time end_time)))
    as Hcomplete.
  unfold Run.requests_sent in *.
  destruct (Run.exec_plan requests_get DataFrame_other config
              (fst (plan (tumbling_window_size config) fuel start_time end_time))
              (snd (plan (tumbling_window_size config) fuel start_time end_time))
              st) as [r st'].
  cbn [fst snd] in *.
  destruct (Run.batches requests_get DataFrame_other config n
              (fst (plan (tumbling_window_size config) fuel start_time end_time)))
    as [bs err].
  cbn [fst snd] in *.
  destruct r as [[] | e |]; cbn [fst snd];
    (split; [exact Hdf |]); (split; [exact Hcalls |]);
    (split; [exact Hstore |]); split.
  - intros e He. subst err. discriminate.
  - intros frame Hf. inversion Hf. split; [reflexivity |].
    destruct err; [discriminate |].
    rewrite Hcalls, (Hcomplete eq_refl), firstn_all. reflexivity.
  - intros e' He. subst err. inversion Hres. reflexivity.
  - discriminate.
  - intros e' He. subst err. discriminate.
  - discriminate.
Qed.

End RunLemmas.

(** ** The fetch *)

(** C2: once the answer has status 200 and parses into a batch, the fetch
    fails with the saturation error exactly when the batch has as many rows
    as the configured limit; every other batch, in particular every
    strictly smaller one, is returned. *)
Theorem C2_saturated_iff_batch_equals_limit
    (requests_get : nat -> string -> Params -> exn + Response)
    (DataFrame_other : json -> exn + pd.DataFrame) (config : ApiConfig)
    (start_time end_time : string) (st : State)
    (response : Response) (edit_records : json) (window_df : pd.DataFrame) :
  requests_get (List.length (calls st)) (base_url config)
    (IvWikipediaData._get_api_params config end_time start_time)
  = inr response ->
  status_code response = 200 ->
  IvWikipediaData.recentchanges response = inr edit_records ->
  pd.DataFrame_of DataFrame_other edit_records = inr window_df ->
  let r := fst (IvWikipediaData._fetch_tumbling_window_data
                  requests_get DataFrame_other config start_time end_time st) in
  (r = Raise (SystemExit IvWikipediaData.saturated_msg)
   <-> pd.len window_df = limit config)
  /\ (pd.len window_df < limit config -> r = Ok window_df)
  /\ (pd.len window_df <> limit config -> r = Ok window_df).
Proof.
  intros Hanswer Hstatus Hrecords Hframe r. subst r.
  rewrite fetch_eq. cbn [fst]. rewrite Hanswer.
  unfold Run.batch_of. rewrite Hstatus, Hrecords, Hframe. cbn.
  destruct (pd.len window_df =? limit config) eqn:Hlen; cbn.
  - apply Z.eqb_eq in Hlen. repeat split; intros; try lia; reflexivity.
  - apply Z.eqb_neq in Hlen. repeat split; intros; try reflexivity;
      try discriminate; contradiction.
Qed.

Lemma C2_witness :
  let config := mkApiConfig Samples.api_url 2 30 in
  let rows := [Samples.edit "A" "u" 1; Samples.edit "B" "v" 2] in
  let r := fst (IvWikipediaData._fetch_tumbling_window_data
                  (Samples.server_with rows) Samples.no_other config
                  "2024-10-31T00:00:00Z" "2024-10-31T00:00:29Z" Samples.fresh) in
  (r = Raise (SystemExit IvWikipediaData.saturated_msg) <-> 2 = 2)
  /\ (2 < 2 -> r = Ok (pd.from_records
                         (map (fun j => match j with JObj f => f | _ => [] end)
                              rows)))
  /\ (2 <> 2 -> r = Ok (pd.from_records
                          (map (fun j => match j with JObj f => f | _ => [] end)
                               rows))).
Proof.
  exact (C2_saturated_iff_batch_equals_limit
           (Samples.server_with [Samples.edit "A" "u" 1; Samples.edit "B" "v" 2])
           Samples.no_other (mkApiConfig Samples.api_url 2 30)
           "2024-10-31T00:00:00Z" "2024-10-31T00:00:29Z" Samples.fresh
           _ _ _ eq_refl eq_refl eq_refl eq_refl).
Defined.

(** ** The requests of a run *)





(** ** Accumulation *)

(** C8: the accumulated table is the starting table followed by the merged
    batches in window order: under every column label its cells are the
    cells of the starting table, then those of the first merged batch, then
    those of the second, and so on, each batch in its own row order. *)
Theorem C8_accumulation_preserves_order
    (requests_get : nat -> string -> Params -> exn + Response)
    (DataFrame_other : json -> exn + pd.DataFrame) (config : ApiConfig)
    (fuel : nat) (input_date : string) (st : State) (c : string) :
  let out := IvWikipediaData._get_api_data
               requests_get DataFrame_other config fuel input_date st in
  let merged :=
    fst (Run.batches requests_get DataFrame_other config
           (List.length (calls st)) (Run.planned config fuel input_date)) in
  df (snd out) = fold_left pd.concat merged (df st)
  /\ pd.column_values (df (snd out)) c
     = pd.column_values (df st) c
       ++ flat_map (fun b => pd.column_values b c) merged
  /\ pd.len (df (snd out))
     = pd.len (df st) + fold_right Z.add 0 (map pd.len merged).
Proof.
  intros out merged.
  destruct (get_api_data_spec requests_get DataFrame_other config
              fuel input_date st) as (Hdf & _).
  fold out in Hdf. fold merged in Hdf. rewrite Hdf.
  repeat split.
  - apply pd_facts.column_values_fold.
  - apply pd_facts.len_fold.
Qed.

Lemma sum_len_bound (bs : list pd.DataFrame) (L : Z) :
  Forall (fun b => pd.len b < L) bs ->
  fold_right Z.add 0 (map pd.len bs) <= Z.of_nat (List.length bs) * (L - 1).
Proof.
  induction 1 as [| b bs Hb _ IH]; cbn [map fold_right List.length]; [lia |].
  rewrite Nat2Z.inj_succ, Z.mul_succ_l. lia.
Qed.

(** C10, as the code has it: a merged batch never has exactly [limit] rows,
    since the fetch raises on such a batch before the merge.  When no answer
    carries more rows than the limit, every merged batch is strictly smaller
    than it, and after the [n] merges of a run the table has grown by at
    most [n * (limit - 1)] rows. *)
Theorem C10_merged_batches_differ_from_limit
    (requests_get : nat -> string -> Params -> exn + Response)
    (DataFrame_other : json -> exn + pd.DataFrame) (config : ApiConfig)
    (fuel : nat) (input_date : string) (st : State) :
  let out := IvWikipediaData._get_api_data
               requests_get DataFrame_other config fuel input_date st in
  let merged :=
    fst (Run.batches requests_get DataFrame_other config
           (List.length (calls st)) (Run.planned config fuel input_date)) in
  Forall (fun b => pd.len b <> limit config) merged
  /\ ((forall n p response edit_records window_df,
         requests_get n (base_url config) p = inr response ->
         IvWikipediaData.recentchanges response = inr edit_records ->
         pd.DataFrame_of DataFrame_other edit_records = inr window_df ->
         pd.len window_df <= limit config) ->
      Forall (fun b => pd.len b < limit config) merged
      /\ pd.len (df (snd out))
         <= pd.len (df st) + Z.of_nat (List.length merged) * (limit config - 1)).
Proof.
  intros out merged.
  assert (Hne : Forall (fun b => pd.len b <> limit config) merged).
  { apply Forall_forall. intros b Hb.
    apply batches_In in Hb. destruct Hb as (k & w & Hb).
    apply batch_of_ok_inv in Hb.
    destruct Hb as (response & j & _ & _ & _ & _ & Hlen). exact Hlen. }
  split; [exact Hne |].
  intros Hcap.
  assert (Hlt : Forall (fun b => pd.len b < limit config) merged).
  { apply Forall_forall. intros b Hb.
    apply batches_In in Hb. destruct Hb as (k & w & Hb).
    apply batch_of_ok_inv in Hb.
    destruct Hb as (response & j & Ha & _ & Hj & Hw & Hlen).
    specialize (Hcap k _ response j b Ha Hj Hw). lia. }
  split; [exact Hlt |].
  destruct (get_api_data_spec requests_get DataFrame_other config
              fuel input_date st) as (Hdf & _).
  fold out in Hdf. fold merged in Hdf.
  rewrite Hdf, pd_facts.len_fold.
  pose proof (sum_len_bound merged (limit config) Hlt). lia.
Qed.

Lemma C10_witness :
  let config := mkApiConfig Samples.api_url 500 86399 in
  let server := Samples.server_with [Samples.edit "A" "u" 1] in
  let out := IvWikipediaData._get_api_data
               server Samples.no_other config 5 "2024-10-31" Samples.fresh in
  let merged :=
    fst (Run.batches server Samples.no_other config 0
           (Run.planned config 5 "2024-10-31")) in
  Forall (fun b => pd.len b <> 500) merged
  /\ Forall (fun b => pd.len b < 500) merged
  /\ pd.len (df (snd out)) <= 0 + Z.of_nat (List.length merged) * (500 - 1).
Proof.
  intros config server out merged.
  destruct (C10_merged_batches_differ_from_limit
              server Samples.no_other config 5 "2024-10-31" Samples.fresh)
    as [Hne Hcap].
  split; [exact Hne |].
  apply Hcap.
  intros n p response edit_records window_df Ha Hj Hw.
  unfold server, Samples.server_with in Ha. inversion Ha. subst response.
  vm_compute in Hj. inversion Hj. subst edit_records.
  vm_compute in Hw. inversion Hw. subst window_df.
  vm_compute. discriminate.
Defined.

(** C10 as stated fails: with a limit of 2, an answer of three rows passes
    the equality test of the fetch and is merged, so a merged batch is
    larger than the limit and one window leaves three rows where
    [1 * (2 - 1)] was the claimed bound. *)
Lemma C10_counterexample :
  let config := mkApiConfig Samples.api_url 2 86399 in
  let server :=
    Samples.server_with
      [Samples.edit "A" "u" 1; Samples.edit "B" "v" 2; Samples.edit "C" "w" 3] in
  let out := IvWikipediaData._get_api_data
               server Samples.no_other config 5 "2024-10-31" Samples.fresh in
  let merged :=
    fst (Run.batches server Samples.no_other config 0
           (Run.planned config 5 "2024-10-31")) in
  fst out = Ok (df (snd out))
  /\ map pd.len merged = [3]
  /\ ~ Forall (fun b => pd.len b < limit config) merged
  /\ pd.len (df (snd out)) = 3
  /\ ~ (pd.len (df (snd out))
        <= pd.len (df Samples.fresh)
           + Z.of_nat (List.length merged) * (limit config - 1)).
Proof.
  intros config server out merged.
  assert (Hm : map pd.len merged = [3]) by (vm_compute; reflexivity).
  assert (Hlen : pd.len (df (snd out)) = 3) by (vm_compute; reflexivity).
  split; [vm_compute; reflexivity |].
  split; [exact Hm |].
  split.
  - intros H.
    assert (Hall : Forall (fun n => n < 2) (map pd.len merged)).
    { apply Forall_map. exact H. }
    rewrite Hm in Hall. inversion Hall. lia.
  - split; [exact Hlen |].
    rewrite Hlen.
    replace (List.length merged) with 1%nat
      by (rewrite <- (length_map pd.len merged), Hm; reflexivity).
    cbn. lia.
Qed.

(** ** The windows of a day *)

Lemma day_bounds_inv (d : date) (a b : datetime) :
  day_bounds d = inr (a, b) -> a = combine_midnight d /\ b = a + 86399.
Proof.
  unfold day_bounds, timedelta, datetime_sub, datetime_add. cbn.
  destruct (in_range (combine_midnight d + 86400)); [| discriminate].
  destruct (in_range (combine_midnight d + 86400 + -1)); [| discriminate].
  intros H. inversion H. lia.
Qed.

(** split a conjunction of closed facts, leaving the facts untouched *)
Ltac split_all := repeat match goal with |- _ /\ _ => split end.

Lemma get_api_data_ok_done
    (requests_get : nat -> string -> Params -> exn + Response)
    (DataFrame_other : json -> exn + pd.DataFrame) (config : ApiConfig)
    (fuel : nat) (input_date : string) (st : State) (frame : pd.DataFrame) :
  fst (IvWikipediaData._get_api_data
         requests_get DataFrame_other config fuel input_date st) = Ok frame ->
  exists d a b,
    strptime_date input_date = inr d
    /\ day_bounds d = inr (a, b)
    /\ snd (plan (tumbling_window_size config) fuel a b) = PlanDone.
Proof.
  rewrite get_api_data_eq.
  destruct (strptime_date input_date) as [e | d]; [discriminate |].
  destruct (day_bounds d) as [e | [a b]] eqn:Hb; [discriminate |].
  cbv zeta. intros H. exists d, a, b.
  split; [reflexivity |]. split; [exact Hb |].
  pose proof (exec_plan_spec requests_get DataFrame_other config
                (fst (plan (tumbling_window_size config) fuel a b))
                (snd (plan (tumbling_window_size config) fuel a b))
                st _ eq_refl) as (_ & _ & _ & Hres).
  destruct (Run.exec_plan requests_get DataFrame_other config
              (fst (plan (tumbling_window_size config) fuel a b))
              (snd (plan (tumbling_window_size config) fuel a b)) st)
    as [[[] | e |] st']; try discriminate.
  cbn [fst] in Hres.
  destruct (snd (Run.batches requests_get DataFrame_other config
                   (List.length (calls st))
                   (fst (plan (tumbling_window_size config) fuel a b))));
    [discriminate |].
  destruct (snd (plan (tumbling_window_size config) fuel a b));
    [reflexivity | discriminate | discriminate].
Qed.

(** the plan of a completed loop does not depend on the fuel it was given *)
Lemma plan_done_any_fuel (W : Z) (fuel fuel' : nat) (a b : datetime) :
  snd (plan W fuel a b) = PlanDone ->
  snd (plan W fuel' a b) = PlanDone ->
  plan W fuel a b = plan W fuel' a b.
Proof.
  intros H H'.
  destruct (Nat.le_ge_cases fuel fuel') as [Hle | Hle].
  - symmetry. apply plan_facts.plan_fuel_mono; [exact Hle | congruence].
  - apply plan_facts.plan_fuel_mono; [exact Hle | congruence].
Qed.

(** With a positive window size and fuel for every second of the day the
    loop is never cut short: [_get_api_data] returns or raises. *)
Lemma get_api_data_returns
    (requests_get : nat -> string -> Params -> exn + Response)
    (DataFrame_other : json -> exn + pd.DataFrame) (config : ApiConfig)
    (fuel : nat) (input_date : string) (st : State) :
  0 < tumbling_window_size config ->
  (86400 <= fuel)%nat ->
  fst (IvWikipediaData._get_api_data
         requests_get DataFrame_other config fuel input_date st) <> OutOfFuel.
Proof.
  intros HW Hfuel. rewrite get_api_data_eq.
  destruct (strptime_date input_date) as [e | d]; [discriminate |].
  destruct (day_bounds d) as [e | [a b]] eqn:Hb; [discriminate |].
  cbv zeta.
  apply day_bounds_inv in Hb. destruct Hb as [_ Hb].
  pose proof (plan_facts.plan_terminates (tumbling_window_size config)
                fuel a b HW) as Hterm.
  pose proof (exec_plan_spec requests_get DataFrame_other config
                (fst (plan (tumbling_window_size config) fuel a b))
                (snd (plan (tumbling_window_size config) fuel a b))
                st _ eq_refl) as (_ & _ & _ & Hres).
  destruct (Run.exec_plan requests_get DataFrame_other config
              (fst (plan (tumbling_window_size config) fuel a b))
              (snd (plan (tumbling_window_size config) fuel a b)) st)
    as [[[] | e |] st']; cbn [fst] in *; try discriminate.
  exfalso.
  destruct (snd (Run.batches requests_get DataFrame_other config
                   (List.length (calls st))
                   (fst (plan (tumbling_window_size config) fuel a b))));
    [discriminate |].
  destruct (snd (plan (tumbling_window_size config) fuel a b)) eqn:Hpe;
    try discriminate.
  apply Hterm; [| reflexivity].
  replace (b - a) with 86399 by lia. 
  apply Nat.lt_le_trans with (m := 86400%nat); [| exact Hfuel].
  apply Nat2Z.inj_lt. rewrite Z2Nat.id by lia.
  change (Z.of_nat 86400) with (Z.of_nat (Z.to_nat 86400)).
  rewrite Z2Nat.id by lia. lia.
Qed.

(** C7: for the date "2024-10-31" and a window of 30 seconds, a run that
    completes has sent the requests of exactly 2880 windows; every one of
    them, the last included, is 30 seconds wide, and the last one runs from
    23:59:30 to 23:59:59 (nothing is clipped). *)
Theorem C7_oct31_window_30
    (requests_get : nat -> string -> Params -> exn + Response)
    (DataFrame_other : json -> exn + pd.DataFrame)
    (url : string) (lim : Z) (fuel : nat) (st : State) (frame : pd.DataFrame) :
  let config := mkApiConfig url lim 30 in
  let out := IvWikipediaData._get_api_data
               requests_get DataFrame_other config fuel "2024-10-31" st in
  fst out = Ok frame ->
  exists ws,
    calls (snd out) = calls st ++ map (Run.params_of config) ws
    /\ List.length ws = 2880%nat
    /\ width (last ws Samples.no_window) = 30
    /\ strftime (windowEnd (last ws Samples.no_window)) = "2024-10-31T23:59:30Z"
    /\ strftime (windowStart (last ws Samples.no_window)) = "2024-10-31T23:59:59Z"
    /\ forallb (fun w => width w =? 30) ws = true
    /\ ws = windows_of_day 30 2881 Samples.oct31.
Proof.
  intros config out Hok.
  destruct (get_api_data_spec requests_get DataFrame_other config
              fuel "2024-10-31" st) as (_ & _ & _ & _ & Hcalls).
  destruct (Hcalls frame Hok) as [_ Hsent].
  exists (Run.planned config fuel "2024-10-31").
  split; [exact Hsent |].
  apply get_api_data_ok_done in Hok.
  destruct Hok as (d & a & b & Hd & Hb & Hdone).
  change (strptime_date "2024-10-31") with (@inr exn date Samples.oct31) in Hd.
  inversion Hd. subst d.
  change (day_bounds Samples.oct31)
    with (@inr exn (datetime * datetime)
            (Samples.oct31_start, Samples.oct31_end)) in Hb.
  inversion Hb. subst a b.
  assert (Hdone' : snd (plan 30 2881 Samples.oct31_start Samples.oct31_end)
                   = PlanDone) by (vm_compute; reflexivity).
  assert (Hws : Run.planned config fuel "2024-10-31"
                = fst (plan 30 2881 Samples.oct31_start Samples.oct31_end)).
  { unfold Run.planned.
    change (strptime_date "2024-10-31") with (@inr exn date Samples.oct31).
    unfold windows_of_day.
    change (day_bounds Samples.oct31)
      with (@inr exn (datetime * datetime)
              (Samples.oct31_start, Samples.oct31_end)).
    cbn [tumbling_window_size config].
    rewrite (plan_done_any_fuel 30 fuel 2881 _ _ Hdone Hdone').
    reflexivity. }
  rewrite Hws.
  split_all; vm_compute; reflexivity.
Qed.

Lemma C7_witness :
  let config := mkApiConfig Samples.api_url 500 30 in
  let out := IvWikipediaData._get_api_data
               (Samples.server_with []) Samples.no_other config 2881
               "2024-10-31" Samples.fresh in
  exists ws,
    calls (snd out) = calls Samples.fresh ++ map (Run.params_of config) ws
    /\ List.length ws = 2880%nat
    /\ width (last ws Samples.no_window) = 30
    /\ strftime (windowEnd (last ws Samples.no_window)) = "2024-10-31T23:59:30Z"
    /\ strftime (windowStart (last ws Samples.no_window)) = "2024-10-31T23:59:59Z"
    /\ forallb (fun w => width w =? 30) ws = true
    /\ ws = windows_of_day 30 2881 Samples.oct31.
Proof.
  intros config out.
  apply (C7_oct31_window_30 (Samples.server_with []) Samples.no_other
           Samples.api_url 500 2881 Samples.fresh
           IvWikipediaData._create_empty_dataframe).
  vm_compute. reflexivity.
Defined.

(** Which seconds of the day a completed plan covers: every second but the
    last in any case, and the last second, 23:59:59, unless the window size
    divides 86399. *)
Theorem day_coverage (W : Z) (fuel : nat) (d : date) (a b : datetime)
    (ws : list WindowSpec) (t : datetime) :
  0 < W ->
  day_bounds d = inr (a, b) ->
  plan W fuel a b = (ws, PlanDone) ->
  existsb (fun w => covers w t) ws = true
  <-> a <= t <= b /\ (t < b \/ 86399 mod W <> 0).
Proof.
  intros HW Hd Hplan.
  apply day_bounds_inv in Hd. destruct Hd as [_ Hb].
  rewrite (plan_facts.plan_coverage W fuel a b ws t HW Hplan).
  replace (b - a) with 86399 by lia. lia.
Qed.

(** Where the last window of the day ends: at 23:59:59, or one second
    earlier when the window size divides 86399. *)
Theorem day_last_bound (W : Z) (fuel : nat) (d : date) (a b : datetime)
    (ws : list WindowSpec) (dflt : WindowSpec) :
  0 < W ->
  day_bounds d = inr (a, b) ->
  plan W fuel a b = (ws, PlanDone) ->
  windowStart (last ws dflt) = if 86399 mod W =? 0 then b - 1 else b.
Proof.
  intros HW Hd Hplan.
  apply day_bounds_inv in Hd. destruct Hd as [_ Hb].
  rewrite (plan_facts.plan_last_bound W fuel a b ws dflt HW Hplan) by lia.
  replace (b - a) with 86399 by lia. reflexivity.
Qed.

(** C1 at the failing sizes.  With a window of 86399 seconds the whole run
    sends one request, for 00:00:00 to 23:59:58, and returns normally; with
    a window of one second the 86399 planned windows are contiguous and
    none of them contains 23:59:59.  The last second of the day is never
    requested. *)
Theorem C1_last_second_not_covered :
  let config := mkApiConfig Samples.api_url 500 86399 in
  let out := IvWikipediaData._get_api_data
               (Samples.server_with []) Samples.no_other config 5
               "2024-10-31" Samples.fresh in
  let ws := windows_of_day 1 86400 Samples.oct31 in
  fst out = Ok (df (snd out))
  /\ calls (snd out)
     = [IvWikipediaData._get_api_params config
          "2024-10-31T23:59:58Z" "2024-10-31T00:00:00Z"]
  /\ strftime Samples.oct31_end = "2024-10-31T23:59:59Z"
  /\ snd (plan 1 86400 Samples.oct31_start Samples.oct31_end) = PlanDone
  /\ Z.of_nat (List.length ws) = 86399
  /\ contiguous ws = true
  /\ existsb (fun w => covers w Samples.oct31_end) ws = false
  /\ last ws Samples.no_window
     = mkWindow (Samples.oct31_end - 1) (Samples.oct31_end - 1).
Proof.
  cbv zeta. split_all; vm_compute; reflexivity.
Qed.

(** C6 at the failing sizes.  With a window of 86399 seconds the only, hence
    last, window is 86399 seconds wide and ends at 23:59:58; with a window
    of one second the last window is the single second 23:59:58.  In both
    the last window's later bound is not the last second of the day. *)
Theorem C6_last_window_ends_before_day_end :
  let ws := windows_of_day 86399 5 Samples.oct31 in
  let ws1 := windows_of_day 1 86400 Samples.oct31 in
  snd (plan 86399 5 Samples.oct31_start Samples.oct31_end) = PlanDone
  /\ ws = [mkWindow Samples.oct31_start (Samples.oct31_end - 1)]
  /\ width (last ws Samples.no_window) = 86399
  /\ windowStart (last ws Samples.no_window) <> Samples.oct31_end
  /\ strftime (windowStart (last ws Samples.no_window)) = "2024-10-31T23:59:58Z"
  /\ width (last ws1 Samples.no_window) = 1
  /\ windowStart (last ws1 Samples.no_window) <> Samples.oct31_end
  /\ strftime (windowStart (last ws1 Samples.no_window)) = "2024-10-31T23:59:58Z".
Proof.
  cbv zeta. split_all; try (vm_compute; reflexivity); vm_compute; discriminate.
Qed.

(** ** Configuration *)





(** ** A failed request *)

Section FailedRequest.

Variable requests_get : nat -> string -> Params -> exn + Response.
Variable DataFrame_other : json -> exn + pd.DataFrame.
Variable config : ApiConfig.

Lemma nth_error_snoc {A : Type} (l : list A) (x y : A) (i : nat) :
  nth_error (l ++ [x]) i = Some y ->
  (List.length l <= i)%nat ->
  i = List.length l /\ y = x.
Proof.
  intros H Hle. rewrite nth_error_app2 in H by exact Hle.
  destruct (i - List.length l)%nat as [| k] eqn:E.
  - cbn in H. inversion H. split; [lia | reflexivity].
  - cbn in H. destruct k; discriminate.
Qed.



End FailedRequest.

(** ** The whole run *)

Lemma save_calls (frame : pd.DataFrame) (database_path table_name schema : string)
    (st : State) :
  calls (snd (IvWikipediaData._save_to_duckdb frame database_path table_name
                schema st))
  = calls st.
Proof.
  unfold IvWikipediaData._save_to_duckdb, bind, get_store, set_store, lift,
    logger, ret, raise.
  cbn.
  destruct (duckdb.insert_select _ _ frame _); reflexivity.
Qed.

Lemma pipeline_eq (requests_get : nat -> string -> Params -> exn + Response)
    (DataFrame_other : json -> exn + pd.DataFrame) (fuel : nat)
    (config : option ApiConfig) (input_date database_path table_name : string)
    (st : State) :
  IvWikipediaData.pipeline requests_get DataFrame_other fuel config input_date
    database_path table_name st
  = match IvWikipediaData._get_api_data requests_get DataFrame_other
            (effective config) fuel input_date (started st) with
    | (Ok frame, st') =>
        try_except_Exception
          (IvWikipediaData._save_to_duckdb frame database_path table_name "iv" ;;;
           logger INFO MsgCompleted)
          (fun e => logger ERROR (MsgError e)) st'
    | (Raise e, st') =>
        if is_Exception e then logger ERROR (MsgError e) st'
        else (Raise e, st')
    | (OutOfFuel, st') => (OutOfFuel, st')
    end.
Proof.
  unfold IvWikipediaData.pipeline, IvWikipediaData.__init__.
  unfold bind at 1. unfold logger at 1. cbn [df calls log store].
  unfold bind at 1. unfold bind at 1. unfold set_df at 1, ret at 1.
  cbn [df calls log store].
  fold (effective config). fold (started st).
  unfold try_except_Exception, bind.
  destruct (IvWikipediaData._get_api_data requests_get DataFrame_other
              (effective config) fuel input_date (started st))
    as [[frame | e |] st']; reflexivity.
Qed.

(** Publishing happens only after [_get_api_data] has returned: when it
    raises or does not return, the store is what it was. *)
Lemma fetch_error_leaves_store
    (requests_get : nat -> string -> Params -> exn + Response)
    (DataFrame_other : json -> exn + pd.DataFrame) (fuel : nat)
    (config : option ApiConfig) (input_date database_path table_name : string)
    (st : State) :
  (forall frame,
     fst (IvWikipediaData._get_api_data requests_get DataFrame_other
            (effective config) fuel input_date (started st)) <> Ok frame) ->
  store (snd (IvWikipediaData.pipeline requests_get DataFrame_other fuel config
                input_date database_path table_name st))
  = store st.
Proof.
  intros Hfail. rewrite pipeline_eq.
  destruct (get_api_data_spec requests_get DataFrame_other (effective config)
              fuel input_date (started st)) as (_ & _ & Hstore & _).
  destruct (IvWikipediaData._get_api_data requests_get DataFrame_other
              (effective config) fuel input_date (started st))
    as [[frame | e |] st']; cbn [fst snd] in *.
  - exfalso. exact (Hfail frame eq_refl).
  - destruct (is_Exception e); exact Hstore.
  - exact Hstore.
Qed.




(** ** Rows with missing fields, and rows that are not records *)





(** the row without [userid] is merged with [NaN] under [userid] *)
Example missing_userid_is_NaN :
  let config := mkApiConfig Samples.api_url 500 30 in
  let rows := [Samples.edit "A" "u" 1; Samples.edit_without_userid] in
  let w := mkWindow Samples.oct31_start (Samples.oct31_start + 29) in
  let out := Run.window_body (Samples.server_with rows) Samples.no_other
               config w Samples.fresh in
  fst out = Ok tt
  /\ pd.len (df (snd out)) = 2
  /\ pd.at_ (df (snd out)) 0 "userid" = Some (Some (JNum 1))
  /\ pd.at_ (df (snd out)) 1 "userid" = Some pd.NaN
  /\ pd.at_ (df (snd out)) 1 "title" = Some (Some (JStr "Main Page"))
  /\ pd.at_ (df (snd out)) 0 "anon" = Some pd.NaN.
Proof. cbv zeta. split_all; vm_compute; reflexivity. Qed.


(** * Further properties *)

(** ** The planner, for every window size *)

(** The windows planned for a day are contiguous whatever the window size,
    positive or not: each one starts a second after the one before ends. *)
Theorem windows_of_day_contiguous (W : Z) (fuel : nat) (d : date) :
  contiguous (windows_of_day W fuel d) = true.
Proof.
  unfold windows_of_day.
  destruct (day_bounds d) as [e | [a b]]; [reflexivity |].
  apply plan_facts.plan_contiguous.
Qed.

Lemma plan_lower (W : Z) (fuel : nat) (cursor end_time : datetime)
    (w : WindowSpec) :
  0 < W ->
  In w (fst (plan W fuel cursor end_time)) -> cursor <= windowEnd w.
Proof.
  intros HW. revert cursor.
  induction fuel as [| fuel IH]; intros cursor; [cbn; intros [] |].
  plan_facts.plan_step W fuel cursor end_time; cbn; try solve [intros []].
  intros [Hw | Hw].
  - subst w. cbn. lia.
  - specialize (IH (cursor + W)). rewrite Hrest in IH. specialize (IH Hw). lia.
Qed.

Lemma filter_none {A : Type} (f : A -> bool) (l : list A) :
  (forall x, In x l -> f x = false) -> filter f l = [].
Proof.
  induction l as [| x l IH]; intros H; [reflexivity |].
  cbn. rewrite (H x (or_introl eq_refl)). apply IH.
  intros y Hy. apply H. right. exact Hy.
Qed.

Lemma plan_no_overlap (W : Z) (fuel : nat) (cursor end_time : datetime)
    (t : datetime) :
  0 < W ->
  (List.length (filter (fun w => covers w t) (fst (plan W fuel cursor end_time)))
   <= 1)%nat.
Proof.
  intros HW. revert cursor.
  induction fuel as [| fuel IH]; intros cursor; [cbn; lia |].
  plan_facts.plan_step W fuel cursor end_time; cbn [fst filter List.length];
    try lia.
  pose proof (IH (cursor + W)) as IH'. rewrite Hrest in IH'. cbn [fst] in IH'.
  destruct (covers (mkWindow cursor (Z.min (cursor + W - 1) end_time)) t)
    eqn:Hc; [| exact IH'].
  assert (Hnone : filter (fun w => covers w t) l = []).
  { apply filter_none. intros w Hw.
    assert (Hlow : cursor + W <= windowEnd w).
    { apply (plan_lower W fuel (cursor + W) end_time w HW).
      rewrite Hrest. exact Hw. }
    unfold covers in *. cbn in Hc.
    apply andb_true_iff in Hc. destruct Hc as [_ Hc]. apply Z.leb_le in Hc.
    apply andb_false_iff. left. apply Z.leb_gt. lia. }
  rewrite Hnone. cbn. lia.
Qed.

(** With a positive window size no second lies in two planned windows. *)
Theorem windows_of_day_disjoint (W : Z) (fuel : nat) (d : date) (t : datetime) :
  0 < W ->
  (List.length (filter (fun w => covers w t) (windows_of_day W fuel d)) <= 1)%nat.
Proof.
  intros HW. unfold windows_of_day.
  destruct (day_bounds d) as [e | [a b]]; [cbn; lia |].
  apply plan_no_overlap. exact HW.
Qed.

Lemma windows_of_day_disjoint_witness :
  (List.length (filter (fun w => covers w (Samples.oct31_start + 59)%Z)
                  (windows_of_day 30 2881 Samples.oct31)) <= 1)%nat.
Proof.
  apply (windows_of_day_disjoint 30 2881 Samples.oct31
           (Samples.oct31_start + 59)).
  lia.
Defined.

(** Every planned window but the last is exactly [W] seconds wide; every
    window is between 1 and [W] seconds wide. *)
Theorem windows_of_day_widths (W : Z) (fuel : nat) (d : date) :
  0 < W ->
  Forall (fun w => width w = W) (removelast (windows_of_day W fuel d))
  /\ Forall (fun w => 1 <= width w <= W) (windows_of_day W fuel d).
Proof.
  intros HW. unfold windows_of_day.
  destruct (day_bounds d) as [e | [a b]]; [cbn; split; constructor |].
  apply plan_facts.plan_widths. exact HW.
Qed.

Lemma windows_of_day_widths_witness :
  Forall (fun w => width w = 7) (removelast (windows_of_day 7 86400 Samples.oct31))
  /\ Forall (fun w => 1 <= width w <= 7) (windows_of_day 7 86400 Samples.oct31).
Proof.
  apply (windows_of_day_widths 7 86400 Samples.oct31). lia.
Defined.

Lemma plan_length (W : Z) (fuel : nat) (cursor end_time : datetime)
    (ws : list WindowSpec) :
  0 < W ->
  plan W fuel cursor end_time = (ws, PlanDone) ->
  cursor < end_time ->
  Z.of_nat (List.length ws) = (end_time - cursor - 1) / W + 1.
Proof.
  intros HW. revert cursor ws.
  induction fuel as [| fuel IH]; intros cursor ws; [discriminate |].
  plan_facts.plan_step W fuel cursor end_time; intros H Hc; inversion H;
    subst; clear H; [| lia].
  cbn [List.length]. rewrite Nat2Z.inj_succ.
  destruct (Z_lt_ge_dec (cursor + W) end_time) as [Hn | Hn].
  - rewrite (IH (cursor + W) l Hrest Hn).
    replace (end_time - cursor - 1) with (end_time - (cursor + W) - 1 + 1 * W)
      by lia.
    rewrite Z.div_add by lia. lia.
  - destruct l as [| w2 rest].
    + rewrite Z.div_small by lia. reflexivity.
    + apply plan_facts.plan_head in Hrest. lia.
Qed.

(** A day is cut into [86398 / W + 1] windows, which is the ceiling of
    [86399 / W]: the count of the seconds 00:00:00 to 23:59:58 in steps of
    [W]. *)
Theorem day_window_count (W : Z) (fuel : nat) (d : date) (a b : datetime)
    (ws : list WindowSpec) :
  0 < W ->
  day_bounds d = inr (a, b) ->
  plan W fuel a b = (ws, PlanDone) ->
  Z.of_nat (List.length ws) = 86398 / W + 1.
Proof.
  intros HW Hd Hplan.
  apply day_bounds_inv in Hd. destruct Hd as [_ Hb].
  rewrite (plan_length W fuel a b ws HW Hplan) by lia.
  replace (b - a - 1) with 86398 by lia. reflexivity.
Qed.

Lemma oct31_plan_25 :
  plan 25 3457 Samples.oct31_start Samples.oct31_end
  = (fst (plan 25 3457 Samples.oct31_start Samples.oct31_end), PlanDone).
Proof. vm_compute. reflexivity. Defined.

Lemma day_window_count_witness :
  Z.of_nat (List.length (fst (plan 25 3457 Samples.oct31_start Samples.oct31_end)))
  = 86398 / 25 + 1.
Proof.
  apply (day_window_count 25 3457 Samples.oct31 Samples.oct31_start
           Samples.oct31_end).
  - lia.
  - reflexivity.
  - exact oct31_plan_25.
Defined.

Lemma day_coverage_witness :
  existsb (fun w => covers w Samples.oct31_end)
    (fst (plan 25 3457 Samples.oct31_start Samples.oct31_end)) = true
  <-> Samples.oct31_start <= Samples.oct31_end <= Samples.oct31_end
      /\ (Samples.oct31_end < Samples.oct31_end \/ 86399 mod 25 <> 0).
Proof.
  apply (day_coverage 25 3457 Samples.oct31 Samples.oct31_start
           Samples.oct31_end).
  - lia.
  - reflexivity.
  - exact oct31_plan_25.
Defined.

Lemma day_last_bound_witness :
  windowStart (last (fst (plan 25 3457 Samples.oct31_start Samples.oct31_end))
                 Samples.no_window)
  = if 86399 mod 25 =? 0 then Samples.oct31_end - 1 else Samples.oct31_end.
Proof.
  apply (day_last_bound 25 3457 Samples.oct31 Samples.oct31_start
           Samples.oct31_end).
  - lia.
  - reflexivity.
  - exact oct31_plan_25.
Defined.

(** ** Termination *)

Lemma plan_never_done (W : Z) (fuel : nat) (cursor end_time : datetime) :
  W <= 0 ->
  cursor < end_time ->
  snd (plan W fuel cursor end_time) <> PlanDone.
Proof.
  intros HW. revert cursor.
  induction fuel as [| fuel IH]; intros cursor Hc; [discriminate |].
  plan_facts.plan_step W fuel cursor end_time; cbn; try discriminate; [| lia].
  specialize (IH (cursor + W)). rewrite Hrest in IH. apply IH. lia.
Qed.

(** With a window size of zero or less [_get_api_data] never returns a
    table, whatever the server answers and however long it runs: the cursor
    does not advance, so the call ends in an exception or not at all. *)
Theorem nonpositive_size_never_completes
    (requests_get : nat -> string -> Params -> exn + Response)
    (DataFrame_other : json -> exn + pd.DataFrame) (config : ApiConfig)
    (fuel : nat) (input_date : string) (st : State) (frame : pd.DataFrame) :
  tumbling_window_size config <= 0 ->
  fst (IvWikipediaData._get_api_data
         requests_get DataFrame_other config fuel input_date st) <> Ok frame.
Proof.
  intros HW Hok.
  apply get_api_data_ok_done in Hok.
  destruct Hok as (d & a & b & _ & Hb & Hdone).
  apply day_bounds_inv in Hb. destruct Hb as [_ Hb].
  apply (plan_never_done (tumbling_window_size config) fuel a b HW); [lia |].
  exact Hdone.
Qed.

Lemma nonpositive_size_never_completes_witness :
  fst (IvWikipediaData._get_api_data
         (Samples.server_with []) Samples.no_other
         (mkApiConfig Samples.api_url 500 0) 3 "2024-10-31" Samples.fresh)
  <> Ok IvWikipediaData._create_empty_dataframe.
Proof.
  apply (nonpositive_size_never_completes (Samples.server_with [])
           Samples.no_other (mkApiConfig Samples.api_url 500 0) 3
           "2024-10-31" Samples.fresh IvWikipediaData._create_empty_dataframe).
  cbn. lia.
Defined.

Lemma get_api_data_returns_witness :
  fst (IvWikipediaData._get_api_data
         (Samples.server_with []) Samples.no_other
         (mkApiConfig Samples.api_url 500 43200) 86400 "2024-10-31"
         Samples.fresh)
  <> OutOfFuel.
Proof.
  apply (get_api_data_returns (Samples.server_with []) Samples.no_other
           (mkApiConfig Samples.api_url 500 43200) 86400 "2024-10-31"
           Samples.fresh).
  - cbn. lia.
  - apply le_n.
Defined.

(** ** A fetch that raises, inside a run *)

Section FetchError.

Variable requests_get : nat -> string -> Params -> exn + Response.
Variable DataFrame_other : json -> exn + pd.DataFrame.

(** When the fetch of request number [i] raises [e], the run over the plan
    raises [e], that request is the last one sent and the store is left
    alone. *)
Lemma exec_plan_fetch_error (config : ApiConfig) (ws : list WindowSpec)
    (pe : plan_end) (st : State) (i : nat) (p : Params) (e : exn) :
  nth_error
    (calls (snd (Run.exec_plan requests_get DataFrame_other config ws pe st))) i
  = Some p ->
  (List.length (calls st) <= i)%nat ->
  Run.batch_of DataFrame_other config (requests_get i (base_url config) p)
  = inl e ->
  fst (Run.exec_plan requests_get DataFrame_other config ws pe st) = Raise e
  /\ List.length
       (calls (snd (Run.exec_plan requests_get DataFrame_other config ws pe st)))
     = S i
  /\ store (snd (Run.exec_plan requests_get DataFrame_other config ws pe st))
     = store st.
Proof.
  revert st.
  induction ws as [| w ws IH]; intros st Hnth Hle Hfail.
  - exfalso.
    assert (Hcalls : calls (snd (Run.exec_plan requests_get DataFrame_other
                                   config [] pe st)) = calls st)
      by (destruct pe; reflexivity).
    rewrite Hcalls in Hnth.
    apply nth_error_None in Hle. congruence.
  - revert Hnth. rewrite exec_plan_cons, window_body_eq.
    destruct (Run.batch_of DataFrame_other config
                (requests_get (List.length (calls st)) (base_url config)
                   (Run.params_of config w))) as [e0 | b] eqn:Hb.
    + cbn [fst snd calls store]. intros Hnth.
      destruct (nth_error_snoc _ _ _ _ Hnth Hle) as [Hi Hp].
      subst i p. rewrite Hfail in Hb. inversion Hb. subst e0.
      split; [reflexivity |].
      split; [rewrite length_app; cbn; lia | reflexivity].
    + intros Hnth.
      match type of Hnth with
      | context [Run.exec_plan _ _ _ ws pe ?s] => set (st1 := s) in *
      end.
      assert (Hlen1 : List.length (calls st1) = S (List.length (calls st))).
      { subst st1. cbn. rewrite length_app. cbn. lia. }
      destruct (Nat.eq_dec i (List.length (calls st))) as [Hi | Hi].
      * exfalso.
        destruct (exec_plan_spec requests_get DataFrame_other config
                    ws pe st1 _ eq_refl) as (_ & Hcalls & _).
        rewrite Hcalls in Hnth.
        rewrite nth_error_app1 in Hnth by lia.
        subst st1. cbn [calls] in Hnth.
        rewrite nth_error_app2 in Hnth by lia.
        rewrite Hi, Nat.sub_diag in Hnth. cbn in Hnth.
        inversion Hnth. subst p i.
        rewrite Hfail in Hb. discriminate.
      * assert (Hle1 : (List.length (calls st1) <= i)%nat) by lia.
        destruct (IH st1 Hnth Hle1 Hfail) as (Hres & Hsent & Hstore).
        repeat split; assumption.
Qed.

Lemma get_api_data_fetch_error (config : ApiConfig) (fuel : nat)
    (input_date : string) (st : State) (i : nat) (p : Params) (e : exn) :
  nth_error
    (calls (snd (IvWikipediaData._get_api_data requests_get DataFrame_other
                   config fuel input_date st))) i
  = Some p ->
  (List.length (calls st) <= i)%nat ->
  Run.batch_of DataFrame_other config (requests_get i (base_url config) p)
  = inl e ->
  fst (IvWikipediaData._get_api_data requests_get DataFrame_other config
         fuel input_date st) = Raise e
  /\ List.length
       (calls (snd (IvWikipediaData._get_api_data requests_get DataFrame_other
                      config fuel input_date st)))
     = S i
  /\ store (snd (IvWikipediaData._get_api_data requests_get DataFrame_other
                   config fuel input_date st))
     = store st.
Proof.
  rewrite get_api_data_eq.
  destruct (strptime_date input_date) as [x | d].
  { cbn. intros Hnth Hle. apply nth_error_None in Hle. congruence. }
  destruct (day_bounds d) as [x | [a b]].
  { cbn. intros Hnth Hle. apply nth_error_None in Hle. congruence. }
  cbv zeta.
  pose proof (exec_plan_fetch_error config
                (fst (plan (tumbling_window_size config) fuel a b))
                (snd (plan (tumbling_window_size config) fuel a b))
                st i p e) as H.
  destruct (Run.exec_plan requests_get DataFrame_other config
              (fst (plan (tumbling_window_size config) fuel a b))
              (snd (plan (tumbling_window_size config) fuel a b)) st)
    as [[[] | x |] st'];
    cbn [fst snd] in *; intros Hnth Hle Hfail;
    destruct (H Hnth Hle Hfail) as (Hres & Hrest);
    try discriminate.
  inversion Hres. subst x. split; [reflexivity | exact Hrest].
Qed.

Lemma pipeline_calls (fuel : nat) (config : option ApiConfig)
    (input_date database_path table_name : string) (st : State) :
  calls (snd (IvWikipediaData.pipeline requests_get DataFrame_other fuel config
                input_date database_path table_name st))
  = calls (snd (IvWikipediaData._get_api_data requests_get DataFrame_other
                  (effective config) fuel input_date (started st))).
Proof.
  rewrite pipeline_eq.
  destruct (IvWikipediaData._get_api_data requests_get DataFrame_other
              (effective config) fuel input_date (started st))
    as [[frame | e |] st']; cbn [snd].
  - unfold try_except_Exception, bind.
    pose proof (save_calls frame database_path table_name "iv" st') as Hs.
    destruct (IvWikipediaData._save_to_duckdb frame database_path table_name
                "iv" st') as [[[] | e |] st2]; cbn [snd] in *;
      try exact Hs.
    destruct (is_Exception e); exact Hs.
  - destruct (is_Exception e); reflexivity.
  - reflexivity.
Qed.

(** The same for the whole program: an exception of class [Exception] is
    caught and logged and the program ends normally, [SystemExit] ends it;
    either way nothing is published and no further request is sent. *)
Lemma pipeline_fetch_error (fuel : nat) (config : option ApiConfig)
    (input_date database_path table_name : string) (st : State) (i : nat)
    (p : Params) (e : exn) :
  nth_error
    (calls (snd (IvWikipediaData.pipeline requests_get DataFrame_other fuel
                   config input_date database_path table_name st))) i
  = Some p ->
  (List.length (calls st) <= i)%nat ->
  Run.batch_of DataFrame_other (effective config)
    (requests_get i (base_url (effective config)) p) = inl e ->
  fst (IvWikipediaData.pipeline requests_get DataFrame_other fuel config
         input_date database_path table_name st)
  = (if is_Exception e then Ok tt else Raise e)
  /\ List.length
       (calls (snd (IvWikipediaData.pipeline requests_get DataFrame_other fuel
                      config input_date database_path table_name st)))
     = S i
  /\ store (snd (IvWikipediaData.pipeline requests_get DataFrame_other fuel
                   config input_date database_path table_name st))
     = store st
  /\ (is_Exception e = true ->
      In (ERROR, MsgError e)
        (log (snd (IvWikipediaData.pipeline requests_get DataFrame_other fuel
                     config input_date database_path table_name st)))).
Proof.
  rewrite pipeline_calls. intros Hnth Hle Hfail.
  destruct (get_api_data_fetch_error (effective config) fuel input_date
              (started st) i p e Hnth Hle Hfail) as (Hres & Hsent & Hstore).
  rewrite pipeline_eq.
  destruct (IvWikipediaData._get_api_data requests_get DataFrame_other
              (effective config) fuel input_date (started st))
    as [[frame | x |] st']; cbn [fst snd] in *; try discriminate.
  inversion Hres. subst x.
  destruct (is_Exception e); cbn [fst snd logger log calls store].
  - repeat split; try assumption.
    intros _. apply in_or_app. right. left. reflexivity.
  - repeat split; try assumption. discriminate.
Qed.

End FetchError.

(** A window whose answer holds exactly [limit] records stops the whole
    program with the saturation [SystemExit]: no later window is requested
    and nothing is published. *)
Theorem saturated_window_aborts_run
    (requests_get : nat -> string -> Params -> exn + Response)
    (DataFrame_other : json -> exn + pd.DataFrame) (fuel : nat)
    (config : option ApiConfig) (input_date database_path table_name : string)
    (st : State) (i : nat) (p : Params) (response : Response)
    (rows : list json) (recs : list (list (string * json))) :
  let out := IvWikipediaData.pipeline requests_get DataFrame_other fuel config
               input_date database_path table_name st in
  nth_error (calls (snd out)) i = Some p ->
  (List.length (calls st) <= i)%nat ->
  requests_get i (base_url (effective config)) p = inr response ->
  status_code response = 200 ->
  IvWikipediaData.recentchanges response = inr (JArr rows) ->
  pd.all_records rows = Some recs ->
  Z.of_nat (List.length rows) = limit (effective config) ->
  fst out = Raise (SystemExit IvWikipediaData.saturated_msg)
  /\ List.length (calls (snd out)) = S i
  /\ store (snd out) = store st.
Proof.
  intros out Hnth Hle Hanswer Hstatus Hrows Hrecs Hlimit.
  assert (Hfail : Run.batch_of DataFrame_other (effective config)
                    (requests_get i (base_url (effective config)) p)
                  = inl (SystemExit IvWikipediaData.saturated_msg)).
  { rewrite Hanswer. unfold Run.batch_of. rewrite Hstatus, Hrows.
    change (negb (200 =? 200)) with false. cbv iota.
    rewrite (pd_facts.DataFrame_of_records DataFrame_other rows recs Hrecs).
    rewrite pd_facts.len_from_records,
      (pd_facts.all_records_length rows recs Hrecs), Hlimit, Z.eqb_refl.
    reflexivity. }
  destruct (pipeline_fetch_error requests_get DataFrame_other fuel config
              input_date database_path table_name st i p _ Hnth Hle Hfail)
    as (Hres & Hsent & Hstore & _).
  repeat split; assumption.
Qed.

Lemma saturated_window_aborts_run_witness :
  let rows := [Samples.edit "A" "u" 1; Samples.edit "B" "v" 2] in
  let out := IvWikipediaData.pipeline
               (MoreSamples.server_answering_at 1 (inr (Samples.answer_with rows)))
               Samples.no_other 2881
               (Some (mkApiConfig Samples.api_url 2 30)) "2024-10-31"
               "wikipedia.db" "wiki_edits" Samples.fresh in
  fst out = Raise (SystemExit IvWikipediaData.saturated_msg)
  /\ List.length (calls (snd out)) = 2%nat
  /\ store (snd out) = store Samples.fresh.
Proof.
  intros rows out.
  apply (saturated_window_aborts_run
           (MoreSamples.server_answering_at 1 (inr (Samples.answer_with rows)))
           Samples.no_other 2881 (Some (mkApiConfig Samples.api_url 2 30))
           "2024-10-31" "wikipedia.db" "wiki_edits" Samples.fresh 1
           (IvWikipediaData._get_api_params (mkApiConfig Samples.api_url 2 30)
              "2024-10-31T00:00:59Z" "2024-10-31T00:00:30Z")
           (Samples.answer_with rows) rows
           (map (fun j => match j with JObj f => f | _ => [] end) rows)).
  - vm_compute. reflexivity.
  - cbn. lia.
  - reflexivity.
  - reflexivity.
  - reflexivity.
  - reflexivity.
  - reflexivity.
Defined.

(** An answer that cannot be used (the transport raises, the body is not
    JSON, or the JSON has no ['query']['recentchanges']) stops the
    extraction, but the program ends normally: the [except Exception] clause
    logs the exception as an ERROR.  No later window is requested and
    nothing is published. *)
Theorem unusable_answer_ends_run_without_publishing
    (requests_get : nat -> string -> Params -> exn + Response)
    (DataFrame_other : json -> exn + pd.DataFrame) (fuel : nat)
    (config : option ApiConfig) (input_date database_path table_name : string)
    (st : State) (i : nat) (p : Params) (e : exn) :
  let out := IvWikipediaData.pipeline requests_get DataFrame_other fuel config
               input_date database_path table_name st in
  nth_error (calls (snd out)) i = Some p ->
  (List.length (calls st) <= i)%nat ->
  is_Exception e = true ->
  (requests_get i (base_url (effective config)) p = inl e
   \/ exists response,
        requests_get i (base_url (effective config)) p = inr response
        /\ status_code response = 200
        /\ IvWikipediaData.recentchanges response = inl e) ->
  fst out = Ok tt
  /\ List.length (calls (snd out)) = S i
  /\ store (snd out) = store st
  /\ In (ERROR, MsgError e) (log (snd out)).
Proof.
  intros out Hnth Hle He Hanswer.
  assert (Hfail : Run.batch_of DataFrame_other (effective config)
                    (requests_get i (base_url (effective config)) p) = inl e).
  { destruct Hanswer as [Ht | (response & Ha & Hstatus & Hj)].
    - rewrite Ht. reflexivity.
    - rewrite Ha. unfold Run.batch_of. rewrite Hstatus, Hj. reflexivity. }
  destruct (pipeline_fetch_error requests_get DataFrame_other fuel config
              input_date database_path table_name st i p e Hnth Hle Hfail)
    as (Hres & Hsent & Hstore & Hlog).
  rewrite He in Hres. repeat split; try assumption. apply Hlog. exact He.
Qed.

Lemma unusable_answer_ends_run_without_publishing_witness :
  let out := IvWikipediaData.pipeline
               (MoreSamples.server_answering_at 0 (inr MoreSamples.api_error))
               Samples.no_other 2881 None "2024-10-31"
               "wikipedia.db" "wiki_edits" Samples.fresh in
  fst out = Ok tt
  /\ List.length (calls (snd out)) = 1%nat
  /\ store (snd out) = store Samples.fresh
  /\ In (ERROR, MsgError (KeyError "query")) (log (snd out)).
Proof.
  intros out.
  apply (unusable_answer_ends_run_without_publishing
           (MoreSamples.server_answering_at 0 (inr MoreSamples.api_error))
           Samples.no_other 2881 None "2024-10-31" "wikipedia.db" "wiki_edits"
           Samples.fresh 0
           (IvWikipediaData._get_api_params default_ApiConfig
              "2024-10-31T00:00:29Z" "2024-10-31T00:00:00Z")
           (KeyError "query")).
  - vm_compute. reflexivity.
  - cbn. lia.
  - reflexivity.
  - right. exists MoreSamples.api_error. repeat split; reflexivity.
Defined.

(** ** The store *)

Module store_facts.

Import duckdb.

Lemma dict_get_app {V : Type} (l1 l2 : list (string * V)) (k : string) :
  dict_get (l1 ++ l2) k
  = match dict_get l1 k with
    | Some v => Some v
    | None => dict_get l2 k
    end.
Proof.
  induction l1 as [| [k' v] l1 IH]; [reflexivity |].
  cbn. destruct (String.eqb k' k); [reflexivity | exact IH].
Qed.

Lemma dict_get_remove_same {V : Type} (l : list (string * V)) (k : string) :
  dict_get (assoc_remove k l) k = None.
Proof.
  induction l as [| [k' v] l IH]; [reflexivity |].
  cbn. destruct (String.eqb k' k) eqn:E; [exact IH |].
  cbn. rewrite E. exact IH.
Qed.

(** what is stored under a key is what was last put there *)
Lemma dict_get_set_same {V : Type} (l : list (string * V)) (k : string) (v : V) :
  dict_get (assoc_set k v l) k = Some v.
Proof.
  unfold assoc_set. rewrite dict_get_app, dict_get_remove_same.
  cbn. rewrite String.eqb_refl. reflexivity.
Qed.

Lemma connect_set_same (s : Store) (path : string) (db : Database) :
  connect path (assoc_set path db s) = db.
Proof. unfold connect. rewrite dict_get_set_same. reflexivity. Qed.

(** the table as the three statements before the [INSERT] leave it *)
Lemma created_table_is_empty (name schema : string) (db : Database) :
  dict_get (tables (create_table name (drop_table name (create_schema schema db))))
    name = Some [].
Proof.
  unfold create_table.
  assert (Hnone : dict_get (tables (drop_table name (create_schema schema db)))
                    name = None).
  { unfold drop_table. cbn. apply dict_get_remove_same. }
  rewrite Hnone. cbn. rewrite dict_get_app.
  change (assoc_remove name (tables (create_schema schema db)))
    with (tables (drop_table name (create_schema schema db))).
  rewrite Hnone. cbn. rewrite String.eqb_refl. reflexivity.
Qed.

End store_facts.

(** the state [_save_to_duckdb] ends in, by the outcome of the [INSERT] *)
Lemma save_eq (frame : pd.DataFrame) (database_path table_name schema : string)
    (st : State) :
  let full := (schema ++ "." ++ table_name)%string in
  let conn := duckdb.create_table full
                (duckdb.drop_table full
                   (duckdb.create_schema schema
                      (duckdb.connect database_path (store st)))) in
  IvWikipediaData._save_to_duckdb frame database_path table_name schema st
  = match duckdb.insert_select full saved_columns frame conn with
    | inr conn' =>
        (Ok tt,
         mkState (df st) (calls st) (log st ++ [(INFO, MsgSaved full)])
           (duckdb.assoc_set database_path conn' (store st)))
    | inl e =>
        (Raise e,
         mkState (df st) (calls st) (log st)
           (duckdb.assoc_set database_path conn (store st)))
    end.
Proof.
  intros full conn.
  unfold IvWikipediaData._save_to_duckdb, bind, get_store, set_store, lift,
    logger, ret, raise.
  cbn [df calls log store].
  fold full. fold conn.
  change ["type"; "title"; "user"; "userid"; "timestamp"; "comment"]
    with saved_columns.
  destruct (duckdb.insert_select full saved_columns frame conn);
    reflexivity.
Qed.

(** [_save_to_duckdb] is a full replace: when it returns, the target table
    holds exactly the rows of the frame, in their order, cut down to the six
    saved columns, whatever the table held before; the schema exists. *)
Theorem save_replaces_table (frame : pd.DataFrame)
    (database_path table_name schema : string) (st : State) :
  let out := IvWikipediaData._save_to_duckdb frame database_path table_name
               schema st in
  fst out = Ok tt ->
  table_of (store (snd out)) database_path (schema ++ "." ++ table_name)
  = Some (projected frame)
  /\ pd.mem schema (schemas (duckdb.connect database_path (store (snd out))))
     = true.
Proof.
  intros out. subst out. rewrite save_eq. cbv zeta.
  unfold duckdb.insert_select.
  destruct (forallb (fun c => pd.mem c (pd.columns frame)) saved_columns);
    [| discriminate].
  intros _. cbn [snd store]. unfold table_of.
  rewrite store_facts.connect_set_same. cbn [tables schemas].
  rewrite store_facts.created_table_is_empty.
  rewrite store_facts.dict_get_set_same. split; [reflexivity |].
  unfold duckdb.create_table, duckdb.drop_table, duckdb.create_schema.
  assert (Hs : pd.mem schema
                 (schemas (if pd.mem schema
                                (schemas (duckdb.connect database_path (store st)))
                           then duckdb.connect database_path (store st)
                           else mkDatabase
                                  (schemas (duckdb.connect database_path (store st))
                                   ++ [schema])
                                  (tables (duckdb.connect database_path (store st)))))
               = true).
  { destruct (pd.mem schema (schemas (duckdb.connect database_path (store st))))
      eqn:E; [exact E |].
    cbn. unfold pd.mem. rewrite existsb_app. cbn. rewrite String.eqb_refl.
    apply orb_true_iff. right. reflexivity. }
  match goal with
  | |- context [match ?x with Some _ => _ | None => _ end] => destruct x
  end; exact Hs.
Qed.

Lemma save_replaces_table_witness :
  let frame :=
    pd.concat IvWikipediaData._create_empty_dataframe
      (pd.from_records
         [[("type", JStr "edit"); ("title", JStr "A"); ("userid", JNum 7)]]) in
  let st :=
    mkState frame [] []
      [("wikipedia.db",
        mkDatabase ["iv"] [("iv.wiki_edits", [[Some (JStr "old")]])])] in
  let out := IvWikipediaData._save_to_duckdb frame "wikipedia.db" "wiki_edits"
               "iv" st in
  table_of (store (snd out)) "wikipedia.db" ("iv" ++ "." ++ "wiki_edits")
  = Some (projected frame)
  /\ pd.mem "iv" (schemas (duckdb.connect "wikipedia.db" (store (snd out))))
     = true.
Proof.
  intros frame st out.
  apply (save_replaces_table frame "wikipedia.db" "wiki_edits" "iv" st).
  reflexivity.
Defined.

(** ** The shape of the accumulated table *)

Module shape_facts.

Import pd.

Lemma union_prefix (cols extra : list string) :
  exists more, union cols extra = cols ++ more.
Proof.
  revert cols. induction extra as [| x extra IH]; intros cols; cbn.
  - exists []. rewrite app_nil_r. reflexivity.
  - destruct (mem x cols).
    + apply IH.
    + destruct (IH (cols ++ [x])) as [more Hmore].
      exists (x :: more). rewrite Hmore, <- app_assoc. reflexivity.
Qed.

Lemma union_NoDup (cols extra : list string) :
  NoDup cols -> NoDup (union cols extra).
Proof.
  revert cols. induction extra as [| x extra IH]; intros cols H; cbn;
    [exact H |].
  destruct (mem x cols) eqn:E; [apply IH; exact H |].
  apply IH. apply NoDup_app; [exact H | repeat constructor; intros [] |].
  intros c Hc [Hx | []]. subst c.
  apply pd_facts.mem_In in Hc. congruence.
Qed.

Lemma reindex_self (cols : list string) (row : list cell) :
  NoDup cols ->
  List.length row = List.length cols ->
  reindex cols row cols = row.
Proof.
  unfold reindex. revert row.
  induction cols as [| k cols IH]; intros row Hnd Hlen.
  - destruct row; [reflexivity | discriminate].
  - destruct row as [| v row]; [discriminate |].
    inversion Hnd as [| ? ? Hk Hnd']. subst.
    cbn [map row_get]. rewrite String.eqb_refl. f_equal.
    transitivity (map (row_get cols row) cols);
      [| apply IH; [exact Hnd' | cbn in Hlen; lia]].
    apply map_ext_in. intros c Hc. cbn [row_get].
    destruct (String.eqb k c) eqn:E; [| reflexivity].
    apply String.eqb_eq in E. subst c. contradiction.
Qed.

(** merging a frame without rows and columns changes nothing *)
Lemma concat_empty (a : DataFrame) :
  NoDup (columns a) -> rectangular a ->
  concat a (mkDataFrame [] []) = a.
Proof.
  intros Hnd Hrect. destruct a as [cols rows].
  unfold concat, rectangular in *. cbn in *.
  rewrite app_nil_r. f_equal.
  rewrite <- (map_id rows) at 2.
  apply map_ext_in. intros row Hrow.
  apply reindex_self; [exact Hnd |].
  rewrite Forall_forall in Hrect. apply Hrect. exact Hrow.
Qed.

Lemma concat_rectangular (a b : DataFrame) : rectangular (concat a b).
Proof.
  unfold rectangular, concat. cbn.
  apply Forall_app. split; apply Forall_forall; intros row Hrow;
    apply in_map_iff in Hrow; destruct Hrow as (r & Hr & _); subst row;
    unfold reindex; apply length_map.
Qed.

Lemma fold_concat_shape (bs : list DataFrame) (a : DataFrame) :
  (exists more, columns (fold_left concat bs a) = columns a ++ more)
  /\ (NoDup (columns a) -> NoDup (columns (fold_left concat bs a)))
  /\ (rectangular a -> rectangular (fold_left concat bs a)).
Proof.
  revert a. induction bs as [| b bs IH]; intros a; cbn [fold_left].
  - split; [exists []; rewrite app_nil_r; reflexivity |]. split; auto.
  - destruct (IH (concat a b)) as ((more & Hmore) & Hnd & Hrect).
    split; [| split].
    + destruct (union_prefix (columns a) (columns b)) as [m1 Hm1].
      exists (m1 ++ more). rewrite Hmore. cbn [concat columns].
      rewrite Hm1, <- app_assoc. reflexivity.
    + intros H. apply Hnd. cbn [concat columns]. apply union_NoDup. exact H.
    + intros _. apply Hrect. apply concat_rectangular.
Qed.

Lemma fold_concat_empty (bs : list DataFrame) (a : DataFrame) :
  NoDup (columns a) -> rectangular a ->
  Forall (fun b => b = mkDataFrame [] []) bs ->
  fold_left concat bs a = a.
Proof.
  intros Hnd Hrect Hall. induction Hall as [| b bs Hb _ IH]; [reflexivity |].
  cbn [fold_left]. subst b. rewrite (concat_empty a Hnd Hrect). exact IH.
Qed.

End shape_facts.

(** The accumulated table keeps its shape over a run: its column labels
    stay where they are and new labels are only appended after them, labels
    that were distinct stay distinct, and every row keeps one cell per
    column. *)
Theorem accumulated_table_keeps_its_columns
    (requests_get : nat -> string -> Params -> exn + Response)
    (DataFrame_other : json -> exn + pd.DataFrame) (config : ApiConfig)
    (fuel : nat) (input_date : string) (st : State) :
  let out := IvWikipediaData._get_api_data
               requests_get DataFrame_other config fuel input_date st in
  (exists more, pd.columns (df (snd out)) = pd.columns (df st) ++ more)
  /\ (NoDup (pd.columns (df st)) -> NoDup (pd.columns (df (snd out))))
  /\ (rectangular (df st) -> rectangular (df (snd out))).
Proof.
  intros out.
  destruct (get_api_data_spec requests_get DataFrame_other config
              fuel input_date st) as (Hdf & _).
  fold out in Hdf. rewrite Hdf. apply shape_facts.fold_concat_shape.
Qed.

(** Windows without edits leave the table alone: when every answer carries
    an empty list, a run changes neither the rows nor the columns of a
    table with distinct labels and full rows. *)
Theorem empty_answers_leave_table
    (requests_get : nat -> string -> Params -> exn + Response)
    (DataFrame_other : json -> exn + pd.DataFrame) (config : ApiConfig)
    (fuel : nat) (input_date : string) (st : State) :
  NoDup (pd.columns (df st)) ->
  rectangular (df st) ->
  (forall n p response,
     requests_get n (base_url config) p = inr response ->
     IvWikipediaData.recentchanges response = inr (JArr [])) ->
  df (snd (IvWikipediaData._get_api_data
             requests_get DataFrame_other config fuel input_date st))
  = df st.
Proof.
  intros Hnd Hrect Hempty.
  destruct (get_api_data_spec requests_get DataFrame_other config
              fuel input_date st) as (Hdf & _).
  rewrite Hdf. apply shape_facts.fold_concat_empty; [exact Hnd | exact Hrect |].
  apply Forall_forall. intros b Hb.
  apply batches_In in Hb. destruct Hb as (k & w & Hb).
  apply batch_of_ok_inv in Hb.
  destruct Hb as (response & j & Ha & _ & Hj & Hw & _).
  rewrite (Hempty k _ response Ha) in Hj. inversion Hj. subst j.
  cbn in Hw. inversion Hw. reflexivity.
Qed.

Lemma empty_answers_leave_table_witness :
  df (snd (IvWikipediaData._get_api_data
             (Samples.server_with []) Samples.no_other
             (mkApiConfig Samples.api_url 500 30) 2881 "2024-10-31"
             Samples.fresh))
  = df Samples.fresh.
Proof.
  apply (empty_answers_leave_table (Samples.server_with []) Samples.no_other
           (mkApiConfig Samples.api_url 500 30) 2881 "2024-10-31"
           Samples.fresh).
  - cbn. repeat constructor; cbn; intuition discriminate.
  - constructor.
  - intros n p response Ha. unfold Samples.server_with in Ha.
    inversion Ha. reflexivity.
Defined.

Lemma accumulated_table_keeps_its_columns_witness :
  let out := IvWikipediaData._get_api_data
               (Samples.server_with [Samples.edit_without_userid])
               Samples.no_other (mkApiConfig Samples.api_url 500 43200) 5
               "2024-10-31" Samples.fresh in
  (exists more,
     pd.columns (df (snd out)) = pd.columns (df Samples.fresh) ++ more)
  /\ NoDup (pd.columns (df (snd out)))
  /\ rectangular (df (snd out)).
Proof.
  intros out.
  destruct (accumulated_table_keeps_its_columns
              (Samples.server_with [Samples.edit_without_userid])
              Samples.no_other (mkApiConfig Samples.api_url 500 43200) 5
              "2024-10-31" Samples.fresh) as (Hcols & Hnd & Hrect).
  split; [exact Hcols |]. split.
  - apply Hnd. cbn. repeat constructor; cbn; intuition discriminate.
  - apply Hrect. constructor.
Defined.

(** ** The first and the last day *)

Lemma strptime_date_valid (s : string) (d : date) :
  strptime_date s = inr d -> valid_date d = true.
Proof.
  unfold strptime_date.
  destruct (match_year s) as [[y s1] |]; [| discriminate].
  destruct (match_dash s1) as [s2 |]; [| discriminate].
  destruct (match_month s2) as [[m s3] |]; [| discriminate].
  destruct (match_dash s3) as [s4 |]; [| discriminate].
  destruct (match_day s4) as [[dd [| ? ?]] |]; try discriminate.
  destruct (valid_date (mkdate y m dd)) eqn:E; [| discriminate].
  intros H. inversion H. subst d. exact E.
Qed.

Lemma valid_date_inv (y m dd : Z) :
  valid_date (mkdate y m dd) = true ->
  1 <= y <= 9999 /\ 1 <= m <= 12 /\ 1 <= dd <= _days_in_month y m.
Proof.
  unfold valid_date, MINYEAR, MAXYEAR. cbn [year month day].
  rewrite !andb_true_iff, !Z.leb_le. lia.
Qed.

Lemma is_leap_mod4 (y : Z) : _is_leap y = true -> y mod 4 = 0.
Proof.
  unfold _is_leap. rewrite andb_true_iff, Z.eqb_eq. tauto.
Qed.

Ltac month_cases m :=
  let H := fresh "Hcase" in
  assert (H : m = 1 \/ m = 2 \/ m = 3 \/ m = 4 \/ m = 5 \/ m = 6 \/ m = 7
              \/ m = 8 \/ m = 9 \/ m = 10 \/ m = 11 \/ m = 12) by lia;
  repeat (destruct H as [H | H]); subst m.

(** The ordinal of a date the [date] constructor accepts lies in the range
    of the [datetime] module, and only 9999-12-31 has the largest one. *)
Lemma toordinal_range (d : date) :
  valid_date d = true ->
  1 <= toordinal d <= _MAXORDINAL
  /\ (toordinal d = _MAXORDINAL -> d = mkdate 9999 12 31).
Proof.
  destruct d as [y m dd]. intros Hv.
  apply valid_date_inv in Hv. destruct Hv as (Hy & Hm & Hd).
  unfold toordinal, _ymd2ord, _days_before_year, _days_before_month,
    _days_in_month, _MAXORDINAL in *.
  cbn [year month day].
  destruct (_is_leap y) eqn:Hleap;
    [apply is_leap_mod4 in Hleap | clear Hleap];
    month_cases m; cbn in Hd |- *;
    (split; [Z.div_mod_to_equations; lia |]);
    intros Heq;
    try (exfalso; Z.div_mod_to_equations; lia);
    (assert (y = 9999 /\ dd = 31) as [-> ->]
       by (Z.div_mod_to_equations; lia));
    reflexivity.
Qed.

(** The extraction of a day needs the midnight after it: for 9999-12-31,
    the last day of the calendar, [_get_api_data] raises [OverflowError]
    before any request, and for every other date it finds the bounds
    00:00:00 and 23:59:59 of the day. *)
Theorem only_the_last_day_overflows
    (requests_get : nat -> string -> Params -> exn + Response)
    (DataFrame_other : json -> exn + pd.DataFrame) (config : ApiConfig)
    (fuel : nat) (input_date : string) (st : State) (d : date) :
  strptime_date input_date = inr d ->
  (d = mkdate 9999 12 31 ->
   IvWikipediaData._get_api_data requests_get DataFrame_other config fuel
     input_date st = (Raise OverflowError, st))
  /\ (d <> mkdate 9999 12 31 ->
      day_bounds d = inr (combine_midnight d, combine_midnight d + 86399)).
Proof.
  intros Hd. split.
  - intros Hlast. rewrite get_api_data_eq, Hd. subst d. reflexivity.
  - intros Hother.
    destruct (toordinal_range d (strptime_date_valid _ _ Hd)) as [Hrange Hmax].
    assert (Hlt : toordinal d < _MAXORDINAL).
    { destruct (Z.eq_dec (toordinal d) _MAXORDINAL) as [Heq | Hne];
        [exfalso; exact (Hother (Hmax Heq)) | lia]. }
    unfold day_bounds, timedelta, datetime_sub, datetime_add, in_range,
      MIN_DATETIME, MAX_DATETIME, combine_midnight, _MAXORDINAL in *.
    cbn [Z.abs Z.div Z.leb Z.compare].
    replace (Z.abs (86400 / 86400) <=? 999999999) with true by reflexivity.
    replace (Z.abs (1 / 86400) <=? 999999999) with true by reflexivity.
    replace ((86400 <=? toordinal d * 86400 + 86400)
             && (toordinal d * 86400 + 86400 <=? 3652059 * 86400 + 86399))
      with true
      by (symmetry; apply andb_true_iff; split; apply Z.leb_le; lia).
    replace ((86400 <=? toordinal d * 86400 + 86400 + - (1))
             && (toordinal d * 86400 + 86400 + - (1) <=? 3652059 * 86400 + 86399))
      with true
      by (symmetry; apply andb_true_iff; split; apply Z.leb_le; lia).
    f_equal. f_equal. lia.
Qed.

Lemma only_the_last_day_overflows_witness :
  (mkdate 9999 12 31 = mkdate 9999 12 31 ->
   IvWikipediaData._get_api_data (Samples.server_with []) Samples.no_other
     default_ApiConfig 86400 "9999-12-31" Samples.fresh
   = (Raise OverflowError, Samples.fresh))
  /\ (mkdate 9999 12 31 <> mkdate 9999 12 31 ->
      day_bounds (mkdate 9999 12 31)
      = inr (combine_midnight (mkdate 9999 12 31),
             combine_midnight (mkdate 9999 12 31) + 86399)).
Proof.
  apply (only_the_last_day_overflows (Samples.server_with []) Samples.no_other
           default_ApiConfig 86400 "9999-12-31" Samples.fresh
           (mkdate 9999 12 31)).
  reflexivity.
Defined.

(** ** The two variants of the pipeline *)

Section Variants.

Variable requests_get : nat -> string -> Params -> exn + Response.
Variable DataFrame_other : json -> exn + pd.DataFrame.
Variable config : ApiConfig.

Ltac agree_done :=
  repeat split; try assumption; try congruence;
  try (left; reflexivity); try (right; split; reflexivity).

Lemma fetch_agree (start_time end_time : string) (st1 st2 : State) :
  same_data st1 st2 ->
  same_data
    (snd (IvWikipediaData._fetch_tumbling_window_data requests_get
            DataFrame_other config start_time end_time st1))
    (snd (IvWikipediaAnalytics._fetch_window_data requests_get
            DataFrame_other config start_time end_time st2))
  /\ same_outcome
       (fst (IvWikipediaData._fetch_tumbling_window_data requests_get
               DataFrame_other config start_time end_time st1))
       (fst (IvWikipediaAnalytics._fetch_window_data requests_get
               DataFrame_other config start_time end_time st2)).
Proof.
  intros (Hdf & Hcalls & Hstore).
  rewrite fetch_eq.
  unfold IvWikipediaAnalytics._fetch_window_data, IvWikipediaData.http_get,
    bind, same_data.
  cbn [fst snd df calls log store]. rewrite <- Hcalls.
  unfold Run.batch_of.
  destruct (requests_get (List.length (calls st1)) (base_url config)
              (IvWikipediaData._get_api_params config end_time start_time))
    as [e | response]; cbn [fst snd df calls log store Run.to_result].
  { agree_done. }
  destruct (negb (status_code response =? 200)).
  { unfold logger, raise. cbn [fst snd df calls log store Run.to_result].
    agree_done. }
  destruct (IvWikipediaData.recentchanges response) as [e | j];
    cbn [lift raise ret fst snd df calls log store Run.to_result].
  { unfold raise. cbn. agree_done. }
  destruct (pd.DataFrame_of DataFrame_other j) as [e | b];
    cbn [lift raise ret fst snd df calls log store Run.to_result].
  { unfold raise. cbn. agree_done. }
  destruct (pd.len b =? limit config);
    unfold raise, ret, logger;
    cbn [fst snd df calls log store Run.to_result same_outcome];
    agree_done.
Qed.

Lemma bind_logger {A : Type} (lv : level) (msg : message) (k : M A)
    (st : State) :
  (logger lv msg ;;; k) st
  = k (mkState (df st) (calls st) (log st ++ [(lv, msg)]) (store st)).
Proof. reflexivity. Qed.

Lemma loops_agree (fuel : nat) (cursor end_time : datetime) (st1 st2 : State) :
  same_data st1 st2 ->
  same_data
    (snd (IvWikipediaData.window_loop requests_get DataFrame_other config
            fuel cursor end_time st1))
    (snd (IvWikipediaAnalytics.window_loop requests_get DataFrame_other config
            fuel cursor end_time st2))
  /\ same_outcome
       (fst (IvWikipediaData.window_loop requests_get DataFrame_other config
               fuel cursor end_time st1))
       (fst (IvWikipediaAnalytics.window_loop requests_get DataFrame_other
               config fuel cursor end_time st2)).
Proof.
  revert cursor st1 st2.
  induction fuel as [| fuel IH]; intros cursor st1 st2 Hsame.
  { cbn. split; [exact Hsame | reflexivity]. }
  cbn [IvWikipediaData.window_loop IvWikipediaAnalytics.window_loop].
  destruct (cursor <? end_time);
    [| cbn; split; [exact Hsame | reflexivity]].
  rewrite !bind_logger, !advance_eq.
  destruct (advance (tumbling_window_size config) cursor)
    as [e | [next before]].
  { cbn. agree_done; apply Hsame. }
  unfold bind, logger, get_df, set_df. cbn [df calls log store].
  match goal with
  | |- context [IvWikipediaData._fetch_tumbling_window_data _ _ _ ?a ?b ?s1] =>
    match goal with
    | |- context [IvWikipediaAnalytics._fetch_window_data _ _ _ a b ?s2] =>
        assert (Hs : same_data s1 s2)
          by (destruct Hsame as (H1 & H2 & H3); repeat split; assumption);
        destruct (fetch_agree a b s1 s2 Hs) as [Hdata Hout];
        destruct (IvWikipediaData._fetch_tumbling_window_data
                    requests_get DataFrame_other config a b s1)
          as [[b1 | e1 |] s1'];
        destruct (IvWikipediaAnalytics._fetch_window_data
                    requests_get DataFrame_other config a b s2)
          as [[b2 | e2 |] s2']
    end
  end; cbn [fst snd same_outcome] in *;
    try discriminate;
    try (destruct Hout as [Hout | [_ Hout]]; discriminate).
  - inversion Hout. subst b2. apply IH.
    destruct Hdata as (H1 & H2 & H3). repeat split; cbn; congruence.
  - split; [exact Hdata |].
    destruct Hout as [Hout | [He Hout]]; inversion Hout; subst;
      [left; reflexivity | right; split; reflexivity].
  - split; [exact Hdata | reflexivity].
Qed.

Lemma get_api_data_loop (fuel : nat) (input_date : string) (st : State) :
  IvWikipediaData._get_api_data requests_get DataFrame_other config
    fuel input_date st
  = match strptime_date input_date with
    | inl e => (Raise e, st)
    | inr d =>
      match day_bounds d with
      | inl e => (Raise e, st)
      | inr (a, b) =>
        match IvWikipediaData.window_loop requests_get DataFrame_other config
                fuel a b st with
        | (Ok _, st') => (Ok (df st'), st')
        | (Raise e, st') => (Raise e, st')
        | (OutOfFuel, st') => (OutOfFuel, st')
        end
      end
    end.
Proof.
  unfold IvWikipediaData._get_api_data, day_bounds, bind.
  destruct (strptime_date input_date) as [e | d]; cbn; [reflexivity |].
  destruct (datetime_add (combine_midnight d) 86400) as [e | next_day]; cbn;
    [reflexivity |].
  destruct (datetime_sub next_day 1) as [e | end_time]; cbn; [reflexivity |].
  destruct (IvWikipediaData.window_loop _ _ _ _ _ _ st) as [[[] | e |] st'];
    reflexivity.
Qed.

Lemma variant_get_api_data_loop (fuel : nat) (input_date : string)
    (st : State) :
  IvWikipediaAnalytics.get_api_data requests_get DataFrame_other config
    fuel input_date st
  = match strptime_date input_date with
    | inl e => (Raise e, st)
    | inr d =>
      match day_bounds d with
      | inl e => (Raise e, st)
      | inr (a, b) =>
        match IvWikipediaAnalytics.window_loop requests_get DataFrame_other
                config fuel a b st with
        | (Ok _, st') => (Ok (df st'), st')
        | (Raise e, st') => (Raise e, st')
        | (OutOfFuel, st') => (OutOfFuel, st')
        end
      end
    end.
Proof.
  unfold IvWikipediaAnalytics.get_api_data, day_bounds, bind.
  destruct (strptime_date input_date) as [e | d]; cbn; [reflexivity |].
  destruct (datetime_add (combine_midnight d) 86400) as [e | next_day]; cbn;
    [reflexivity |].
  destruct (datetime_sub next_day 1) as [e | end_time]; cbn; [reflexivity |].
  destruct (IvWikipediaAnalytics.window_loop _ _ _ _ _ _ st)
    as [[[] | e |] st']; reflexivity.
Qed.

Lemma get_api_data_agree (fuel : nat) (input_date : string) (st1 st2 : State) :
  same_data st1 st2 ->
  same_data
    (snd (IvWikipediaData._get_api_data requests_get DataFrame_other config
            fuel input_date st1))
    (snd (IvWikipediaAnalytics.get_api_data requests_get DataFrame_other config
            fuel input_date st2))
  /\ same_outcome
       (fst (IvWikipediaData._get_api_data requests_get DataFrame_other config
               fuel input_date st1))
       (fst (IvWikipediaAnalytics.get_api_data requests_get DataFrame_other
               config fuel input_date st2)).
Proof.
  intros Hsame.
  rewrite get_api_data_loop, variant_get_api_data_loop.
  destruct (strptime_date input_date) as [e | d];
    [cbn; split; [exact Hsame | left; reflexivity] |].
  destruct (day_bounds d) as [e | [a b]];
    [cbn; split; [exact Hsame | left; reflexivity] |].
  destruct (loops_agree fuel a b st1 st2 Hsame) as [Hdata Hout].
  destruct (IvWikipediaData.window_loop requests_get DataFrame_other config
              fuel a b st1) as [[[] | e1 |] s1'];
    destruct (IvWikipediaAnalytics.window_loop requests_get DataFrame_other
                config fuel a b st2)
      as [[[] | e2 |] s2'];
    cbn [fst snd same_outcome] in *;
    try discriminate;
    try (destruct Hout as [Hout | [_ Hout]]; discriminate).
  - split; [exact Hdata |]. destruct Hdata as (H1 & _). rewrite H1. reflexivity.
  - split; [exact Hdata |].
    destruct Hout as [Hout | [He Hout]]; inversion Hout; subst;
      [left; reflexivity | right; split; reflexivity].
  - split; [exact Hdata | reflexivity].
Qed.

(** The older variant behaves like the current pipeline in everything but
    the log and the wording of the saturation error: for the same server,
    configuration and date, [get_api_data] sends the same requests, leaves
    the same table in [self.df] and the same store, and returns the same
    table or raises the same exception. *)
Theorem variants_agree (fuel : nat) (input_date : string) (st1 st2 : State) :
  same_data st1 st2 ->
  same_data
    (snd (IvWikipediaData._get_api_data requests_get DataFrame_other config
            fuel input_date st1))
    (snd (IvWikipediaAnalytics.get_api_data requests_get DataFrame_other config
            fuel input_date st2))
  /\ same_outcome
       (fst (IvWikipediaData._get_api_data requests_get DataFrame_other config
               fuel input_date st1))
       (fst (IvWikipediaAnalytics.get_api_data requests_get DataFrame_other
               config fuel input_date st2)).
Proof. exact (get_api_data_agree fuel input_date st1 st2). Qed.

End Variants.

Lemma same_data_refl (st : State) : same_data st st.
Proof. repeat split. Qed.

Lemma variants_agree_witness :
  let server := Samples.server_with [Samples.edit "A" "u" 1] in
  let config := mkApiConfig Samples.api_url 500 43200 in
  same_data
    (snd (IvWikipediaData._get_api_data server Samples.no_other config
            5 "2024-10-31" Samples.fresh))
    (snd (IvWikipediaAnalytics.get_api_data server Samples.no_other config
            5 "2024-10-31" Samples.fresh))
  /\ same_outcome
       (fst (IvWikipediaData._get_api_data server Samples.no_other config
               5 "2024-10-31" Samples.fresh))
       (fst (IvWikipediaAnalytics.get_api_data server Samples.no_other config
               5 "2024-10-31" Samples.fresh)).
Proof.
  intros server config.
  apply (variants_agree server Samples.no_other config 5 "2024-10-31"
           Samples.fresh Samples.fresh).
  apply same_data_refl.
Defined.

Lemma variant_pipeline_eq
    (requests_get : nat -> string -> Params -> exn + Response)
    (DataFrame_other : json -> exn + pd.DataFrame) (fuel : nat)
    (config : option ApiConfig) (input_date : string) (st : State) :
  IvWikipediaAnalytics.pipeline requests_get DataFrame_other fuel config
    input_date st
  = match IvWikipediaAnalytics.get_api_data requests_get DataFrame_other
            (effective config) fuel input_date
            (mkState IvWikipediaData._create_empty_dataframe (calls st)
               (log st) (store st)) with
    | (Ok _, st') => logger INFO (MsgError TypeError) st'
    | (Raise e, st') =>
        if is_Exception e then logger INFO (MsgError e) st'
        else (Raise e, st')
    | (OutOfFuel, st') => (OutOfFuel, st')
    end.
Proof.
  unfold IvWikipediaAnalytics.pipeline, IvWikipediaData.__init__,
    try_except_Exception, bind, set_df, ret, raise.
  cbn [df calls log store].
  fold (effective config).
  destruct (IvWikipediaAnalytics.get_api_data requests_get DataFrame_other
              (effective config) fuel input_date _) as [[frame | e |] st'];
    reflexivity.
Qed.

(** The variant's program never publishes: its call of [save_to_duckdb]
    lacks the [df] argument, so after a completed extraction it raises
    [TypeError], which is caught and logged at level INFO.  Whatever the
    server answers, the store is what it was, and a completed extraction
    still ends the program normally. *)
Theorem variant_program_never_publishes
    (requests_get : nat -> string -> Params -> exn + Response)
    (DataFrame_other : json -> exn + pd.DataFrame) (fuel : nat)
    (config : option ApiConfig) (input_date : string) (st : State) :
  let out := IvWikipediaAnalytics.pipeline requests_get DataFrame_other fuel
               config input_date st in
  let constructed :=
    mkState IvWikipediaData._create_empty_dataframe (calls st) (log st)
      (store st) in
  store (snd out) = store st
  /\ (forall frame,
        fst (IvWikipediaAnalytics.get_api_data requests_get DataFrame_other
               (effective config) fuel input_date constructed) = Ok frame ->
        fst out = Ok tt /\ In (INFO, MsgError TypeError) (log (snd out))).
Proof.
  intros out constructed. subst out.
  rewrite variant_pipeline_eq. fold constructed.
  destruct (get_api_data_agree requests_get DataFrame_other (effective config)
              fuel input_date constructed constructed
              (same_data_refl constructed)) as [(_ & _ & Hstore) _].
  destruct (get_api_data_spec requests_get DataFrame_other (effective config)
              fuel input_date constructed) as (_ & _ & Hstore' & _).
  rewrite Hstore' in Hstore. cbn [constructed store] in Hstore.
  destruct (IvWikipediaAnalytics.get_api_data requests_get DataFrame_other
              (effective config) fuel input_date constructed)
    as [[frame | e |] st'] eqn:Hrun;
    cbn [fst snd logger store log] in *.
  - split; [congruence |]. intros frame' _. split; [reflexivity |].
    apply in_or_app. right. left. reflexivity.
  - split; [destruct (is_Exception e); cbn; congruence |].
    intros frame' H. discriminate.
  - split; [congruence |]. intros frame' H. discriminate.
Qed.

Lemma variant_program_never_publishes_witness :
  let out := IvWikipediaAnalytics.pipeline
               (Samples.server_with [Samples.edit "A" "u" 1]) Samples.no_other
               5 (Some (mkApiConfig Samples.api_url 500 43200)) "2024-10-31"
               Samples.fresh in
  store (snd out) = store Samples.fresh
  /\ fst out = Ok tt
  /\ In (INFO, MsgError TypeError) (log (snd out)).
Proof.
  intros out.
  destruct (variant_program_never_publishes
              (Samples.server_with [Samples.edit "A" "u" 1]) Samples.no_other
              5 (Some (mkApiConfig Samples.api_url 500 43200)) "2024-10-31"
              Samples.fresh) as [Hstore Hok].
  split; [exact Hstore |].
  apply (Hok (df (snd (IvWikipediaAnalytics.get_api_data
                         (Samples.server_with [Samples.edit "A" "u" 1])
                         Samples.no_other
                         (mkApiConfig Samples.api_url 500 43200) 5
                         "2024-10-31" Samples.fresh)))).
  vm_compute. reflexivity.
Defined.

(** ** The requests of a run, one by one *)

Lemma plan_nth (W : Z) (fuel : nat) (cursor end_time : datetime) (k : nat)
    (w : WindowSpec) :
  nth_error (fst (plan W fuel cursor end_time)) k = Some w ->
  windowEnd w = cursor + Z.of_nat k * W
  /\ windowStart w = Z.min (cursor + (Z.of_nat k + 1) * W - 1) end_time.
Proof.
  revert cursor k.
  induction fuel as [| fuel IH]; intros cursor k;
    [destruct k; discriminate |].
  plan_facts.plan_step W fuel cursor end_time; cbn [fst];
    try solve [destruct k; discriminate].
  destruct k as [| k]; cbn [nth_error].
  - intros H. inversion H. subst w. cbn [windowEnd windowStart Z.of_nat].
    unfold datetime in *. split; [ring | f_equal; ring].
  - intros H. specialize (IH (cursor + W) k). rewrite Hrest in IH.
    destruct (IH H) as [H1 H2]. rewrite H1, H2, Nat2Z.inj_succ.
    unfold Z.succ, datetime in *. split; [ring | f_equal; ring].
Qed.

Lemma nth_error_firstn_Some {A : Type} (n k : nat) (l : list A) (x : A) :
  nth_error (firstn n l) k = Some x -> nth_error l k = Some x.
Proof.
  revert n l. induction k as [| k IH]; intros n l H;
    destruct n, l; cbn in *; try discriminate; auto.
  apply (IH n). exact H.
Qed.

(** The request number [k] of a run (counting from 0) asks for the window
    that starts [k] window sizes after midnight of the target date and ends
    one second before the next one starts, or at 23:59:59 if that comes
    first. *)
Theorem kth_request
    (requests_get : nat -> string -> Params -> exn + Response)
    (DataFrame_other : json -> exn + pd.DataFrame) (config : ApiConfig)
    (fuel : nat) (input_date : string) (st : State) (d : date) (k : nat)
    (p : Params) :
  strptime_date input_date = inr d ->
  nth_error
    (skipn (List.length (calls st))
       (calls (snd (IvWikipediaData._get_api_data
                      requests_get DataFrame_other config fuel input_date st))))
    k = Some p ->
  let midnight := combine_midnight d in
  let W := tumbling_window_size config in
  p = IvWikipediaData._get_api_params config
        (strftime (Z.min (midnight + (Z.of_nat k + 1) * W - 1)
                     (midnight + 86399)))
        (strftime (midnight + Z.of_nat k * W)).
Proof.
  intros Hd Hp midnight W.
  destruct (get_api_data_spec requests_get DataFrame_other config
              fuel input_date st) as (_ & Hcalls & _).
  rewrite Hcalls in Hp.
  rewrite skipn_app, skipn_all, Nat.sub_diag in Hp. cbn [skipn app] in Hp.
  rewrite nth_error_map in Hp.
  destruct (nth_error (firstn _ (Run.planned config fuel input_date)) k)
    as [w |] eqn:Hw; [| discriminate].
  inversion Hp. subst p. clear Hp.
  apply nth_error_firstn_Some in Hw.
  unfold Run.planned in Hw. rewrite Hd in Hw. unfold windows_of_day in Hw.
  destruct (day_bounds d) as [e | [a b]] eqn:Hb;
    [destruct k; discriminate |].
  apply day_bounds_inv in Hb. destruct Hb as [Ha Hb].
  apply plan_nth in Hw. destruct Hw as [H1 H2].
  unfold Run.params_of. rewrite H1, H2. subst a b. reflexivity.
Qed.

Lemma kth_request_witness :
  let midnight := combine_midnight Samples.oct31 in
  IvWikipediaData._get_api_params default_ApiConfig
    "2024-10-31T00:01:29Z" "2024-10-31T00:01:00Z"
  = IvWikipediaData._get_api_params default_ApiConfig
      (strftime (Z.min (midnight + (Z.of_nat 2 + 1) * 30 - 1) (midnight + 86399)))
      (strftime (midnight + Z.of_nat 2 * 30)).
Proof.
  apply (kth_request (Samples.server_failing_at 2 503 "Service Unavailable")
           Samples.no_other default_ApiConfig 2881 "2024-10-31" Samples.fresh
           Samples.oct31 2).
  - reflexivity.
  - vm_compute. reflexivity.
Defined.

(** A completed extraction has sent one request per planned window, which
    for a positive window size is [86398 / W + 1] requests, the ceiling of
    [86399 / W]. *)
Theorem completed_run_request_count
    (requests_get : nat -> string -> Params -> exn + Response)
    (DataFrame_other : json -> exn + pd.DataFrame) (config : ApiConfig)
    (fuel : nat) (input_date : string) (st : State) (frame : pd.DataFrame) :
  0 < tumbling_window_size config ->
  fst (IvWikipediaData._get_api_data
         requests_get DataFrame_other config fuel input_date st) = Ok frame ->
  Z.of_nat (List.length
              (calls (snd (IvWikipediaData._get_api_data
                             requests_get DataFrame_other config fuel
                             input_date st))))
  = Z.of_nat (List.length (calls st)) + 86398 / tumbling_window_size config + 1.
Proof.
  intros HW Hok.
  destruct (get_api_data_spec requests_get DataFrame_other config
              fuel input_date st) as (_ & _ & _ & _ & Hcalls).
  destruct (Hcalls frame Hok) as [_ Hsent]. rewrite Hsent.
  apply get_api_data_ok_done in Hok.
  destruct Hok as (d & a & b & Hd & Hb & Hdone).
  rewrite length_app, length_map, Nat2Z.inj_add.
  unfold Run.planned. rewrite Hd. unfold windows_of_day. rewrite Hb.
  rewrite (day_window_count (tumbling_window_size config) fuel d a b
             (fst (plan (tumbling_window_size config) fuel a b)) HW Hb).
  - lia.
  - rewrite <- Hdone. apply surjective_pairing.
Qed.

Lemma completed_run_request_count_witness :
  Z.of_nat (List.length
              (calls (snd (IvWikipediaData._get_api_data
                             (Samples.server_with []) Samples.no_other
                             (mkApiConfig Samples.api_url 500 21600) 10
                             "2024-10-31" Samples.fresh))))
  = Z.of_nat (List.length (calls Samples.fresh)) + 86398 / 21600 + 1.
Proof.
  apply (completed_run_request_count (Samples.server_with [])
           Samples.no_other (mkApiConfig Samples.api_url 500 21600) 10
           "2024-10-31" Samples.fresh IvWikipediaData._create_empty_dataframe).
  - cbn. lia.
  - vm_compute. reflexivity.
Defined.

(** ** The log *)

Section Log.

Variable requests_get : nat -> string -> Params -> exn + Response.
Variable DataFrame_other : json -> exn + pd.DataFrame.

Lemma fetch_log_before_completion (answer : exn + Response) :
  Forall before_completion (Run.fetch_log DataFrame_other answer).
Proof.
  unfold Run.fetch_log.
  destruct answer as [e | response]; [constructor |].
  destruct (negb (status_code response =? 200)).
  - repeat constructor; discriminate.
  - destruct (IvWikipediaData.recentchanges response) as [e | j];
      [constructor |].
    destruct (pd.DataFrame_of DataFrame_other j) as [e | b]; [constructor |].
    repeat constructor; discriminate.
Qed.

Ltac loop_records :=
  repeat (first [ apply Forall_nil
                | apply Forall_cons; [unfold before_completion; discriminate |] ]).

(** the loop only appends to the log, and never the completion record *)
Lemma exec_plan_log (config : ApiConfig) (ws : list WindowSpec)
    (pe : plan_end) (st : State) :
  exists more,
    log (snd (Run.exec_plan requests_get DataFrame_other config ws pe st))
    = log st ++ more
    /\ Forall before_completion more.
Proof.
  revert st. induction ws as [| w ws IH]; intros st.
  - destruct pe; cbn.
    + exists []. rewrite app_nil_r. split; [reflexivity | constructor].
    + eexists. split; [reflexivity |]. loop_records.
    + exists []. rewrite app_nil_r. split; [reflexivity | constructor].
  - rewrite exec_plan_cons, window_body_eq.
    pose proof (fetch_log_before_completion
                  (requests_get (List.length (calls st)) (base_url config)
                     (Run.params_of config w))) as Hfetch.
    destruct (Run.batch_of DataFrame_other config _) as [e | b].
    + cbn [snd log]. eexists. split; [reflexivity |].
      apply Forall_app. split; [| exact Hfetch].
      loop_records.
    + match goal with
      | |- context [Run.exec_plan _ _ _ ws pe ?s] =>
          destruct (IH s) as (more & Hlog & Hall); rewrite Hlog
      end.
      cbn [log]. eexists. rewrite <- !app_assoc. split; [reflexivity |].
      repeat (apply Forall_app; split); try assumption; loop_records.
Qed.

Lemma get_api_data_log (config : ApiConfig) (fuel : nat) (input_date : string)
    (st : State) :
  exists more,
    log (snd (IvWikipediaData._get_api_data requests_get DataFrame_other config
                fuel input_date st))
    = log st ++ more
    /\ Forall before_completion more.
Proof.
  rewrite get_api_data_eq.
  destruct (strptime_date input_date) as [e | d];
    [exists []; cbn; rewrite app_nil_r; split; [reflexivity | constructor] |].
  destruct (day_bounds d) as [e | [a b]];
    [exists []; cbn; rewrite app_nil_r; split; [reflexivity | constructor] |].
  cbv zeta.
  destruct (exec_plan_log config
              (fst (plan (tumbling_window_size config) fuel a b))
              (snd (plan (tumbling_window_size config) fuel a b)) st)
    as (more & Hlog & Hall).
  destruct (Run.exec_plan requests_get DataFrame_other config _ _ st)
    as [[[] | e |] st']; cbn [snd] in *; exists more; split; assumption.
Qed.

Lemma exec_plan_logs_requests (config : ApiConfig) (ws : list WindowSpec)
    (pe : plan_end) (st : State) (p : Params) :
  In p (skipn (List.length (calls st))
          (calls (snd (Run.exec_plan requests_get DataFrame_other config
                         ws pe st)))) ->
  In (INFO, MsgParam p)
    (log (snd (Run.exec_plan requests_get DataFrame_other config ws pe st))).
Proof.
  revert st. induction ws as [| w ws IH]; intros st.
  - assert (Hcalls : calls (snd (Run.exec_plan requests_get DataFrame_other
                                   config [] pe st)) = calls st)
      by (destruct pe; reflexivity).
    rewrite Hcalls, skipn_all. intros [].
  - rewrite exec_plan_cons, window_body_eq.
    destruct (Run.batch_of DataFrame_other config _) as [e | b].
    + cbn [snd calls log].
      rewrite skipn_app, skipn_all, Nat.sub_diag. cbn [skipn app].
      intros [Hp | []]. subst p.
      apply in_or_app. right. cbn. auto.
    + match goal with
      | |- context [Run.exec_plan _ _ _ ws pe ?s] => set (st1 := s)
      end.
      destruct (exec_plan_spec requests_get DataFrame_other config
                  ws pe st1 _ eq_refl) as (_ & Hcalls & _).
      destruct (exec_plan_log config ws pe st1) as (more & Hlog & _).
      intros Hp.
      assert (Hcase : p = Run.params_of config w
                      \/ In p (skipn (List.length (calls st1))
                                 (calls (snd (Run.exec_plan requests_get
                                                DataFrame_other config ws pe
                                                st1))))).
      { rewrite Hcalls in Hp |- *.
        rewrite (skipn_app (List.length (calls st1))), skipn_all, Nat.sub_diag.
        cbn [skipn app].
        subst st1. cbn [calls] in Hp. rewrite <- app_assoc in Hp.
        rewrite skipn_app, skipn_all, Nat.sub_diag in Hp.
        cbn [skipn app] in Hp.
        destruct Hp as [Hp | Hp]; [left; symmetry; exact Hp | right; exact Hp]. }
      destruct Hcase as [Hp1 | Hp1]; [| exact (IH st1 Hp1)].
      subst p. rewrite Hlog. apply in_or_app. left.
      subst st1. cbn [log].
      apply in_or_app. left. apply in_or_app. right. cbn. auto.
Qed.

(** Every request the extraction sends is in the log: the parameters of a
    request sent during [_get_api_data] are logged at level INFO. *)
Theorem every_request_is_logged (config : ApiConfig) (fuel : nat)
    (input_date : string) (st : State) (p : Params) :
  In p (skipn (List.length (calls st))
          (calls (snd (IvWikipediaData._get_api_data
                         requests_get DataFrame_other config fuel input_date
                         st)))) ->
  In (INFO, MsgParam p)
    (log (snd (IvWikipediaData._get_api_data
                 requests_get DataFrame_other config fuel input_date st))).
Proof.
  rewrite get_api_data_eq.
  destruct (strptime_date input_date) as [e | d];
    [cbn [snd]; rewrite skipn_all; intros [] |].
  destruct (day_bounds d) as [e | [a b]];
    [cbn [snd]; rewrite skipn_all; intros [] |].
  cbv zeta.
  pose proof (exec_plan_logs_requests config
                (fst (plan (tumbling_window_size config) fuel a b))
                (snd (plan (tumbling_window_size config) fuel a b)) st p) as H.
  destruct (Run.exec_plan requests_get DataFrame_other config _ _ st)
    as [[[] | e |] st']; cbn [snd] in *; exact H.
Qed.

End Log.

Lemma every_request_is_logged_witness :
  In (INFO,
      MsgParam (IvWikipediaData._get_api_params default_ApiConfig
                  "2024-10-31T00:00:59Z" "2024-10-31T00:00:30Z"))
    (log (snd (IvWikipediaData._get_api_data
                 (Samples.server_failing_at 2 503 "Service Unavailable")
                 Samples.no_other default_ApiConfig 2881 "2024-10-31"
                 Samples.fresh))).
Proof.
  apply (every_request_is_logged
           (Samples.server_failing_at 2 503 "Service Unavailable")
           Samples.no_other default_ApiConfig 2881 "2024-10-31" Samples.fresh).
  vm_compute. right. left. reflexivity.
Defined.

Lemma fetch_error_leaves_store_witness :
  store (snd (IvWikipediaData.pipeline
                (Samples.server_failing_at 0 503 "Service Unavailable")
                Samples.no_other 2881 None "2024-10-31" "wikipedia.db"
                "wiki_edits" Samples.fresh))
  = store Samples.fresh.
Proof.
  apply (fetch_error_leaves_store
           (Samples.server_failing_at 0 503 "Service Unavailable")
           Samples.no_other 2881 None "2024-10-31" "wikipedia.db" "wiki_edits"
           Samples.fresh).
  intros frame. vm_compute. discriminate.
Defined.

(** ** The completion record *)

Lemma last_record_app (st : State) (l : list LogRecord) (r : LogRecord) :
  log st = l ++ [r] -> last_record st = Some r.
Proof.
  intros H. unfold last_record. rewrite H, rev_app_distr. reflexivity.
Qed.

Lemma last_record_loop (st : State) (l more : list LogRecord) (r : LogRecord) :
  log st = (l ++ [r]) ++ more ->
  before_completion r ->
  Forall before_completion more ->
  last_record st <> Some (INFO, MsgCompleted).
Proof.
  intros Hlog Hr Hmore.
  destruct (rev more) as [| r' more'] eqn:E.
  - apply (f_equal (@rev _)) in E. rewrite rev_involutive in E. subst more.
    rewrite app_nil_r in Hlog. rewrite (last_record_app st l r Hlog).
    intros H. inversion H. subst r. apply Hr. reflexivity.
  - apply (f_equal (@rev _)) in E. rewrite rev_involutive in E. cbn in E.
    subst more. rewrite app_assoc in Hlog.
    rewrite (last_record_app st _ r' Hlog).
    apply Forall_app in Hmore. destruct Hmore as [_ Hr'].
    inversion Hr' as [| ? ? Hlast _]. subst.
    intros H. inversion H. subst r'. apply Hlast. reflexivity.
Qed.

(** When the last record of the log is the completion record, the run has
    fetched every planned window and published the result: the program ends
    normally, [self.df] is the batches of the day merged in window order on
    the empty schema frame, and the target table holds exactly its rows, in
    that order, cut down to the six saved columns, whatever the table held
    before.  (Cells are stored as the frame has them; their conversion to
    the column types by the [INSERT] is not modelled.) *)
Theorem completion_record_means_published
    (requests_get : nat -> string -> Params -> exn + Response)
    (DataFrame_other : json -> exn + pd.DataFrame) (fuel : nat)
    (config : option ApiConfig) (input_date database_path table_name : string)
    (st : State) :
  let out := IvWikipediaData.pipeline requests_get DataFrame_other fuel config
               input_date database_path table_name st in
  let merged :=
    fold_left pd.concat
      (fst (Run.batches requests_get DataFrame_other (effective config)
              (List.length (calls st))
              (Run.planned (effective config) fuel input_date)))
      IvWikipediaData._create_empty_dataframe in
  last_record (snd out) = Some (INFO, MsgCompleted) ->
  fst out = Ok tt
  /\ df (snd out) = merged
  /\ table_of (store (snd out)) database_path ("iv" ++ "." ++ table_name)
     = Some (projected merged)
  /\ calls (snd out)
     = calls st
       ++ map (Run.params_of (effective config))
            (Run.planned (effective config) fuel input_date).
Proof.
  intros out merged. subst out merged. rewrite pipeline_eq.
  destruct (get_api_data_spec requests_get DataFrame_other (effective config)
              fuel input_date (started st)) as (Hdf & _ & _ & _ & Hok).
  destruct (get_api_data_log requests_get DataFrame_other (effective config)
              fuel input_date (started st)) as (more & Hlog & Hmore).
  cbn [started df calls log] in Hdf, Hlog, Hok.
  destruct (IvWikipediaData._get_api_data requests_get DataFrame_other
              (effective config) fuel input_date (started st))
    as [[frame | e |] st'] eqn:Hrun; cbn [fst snd] in *.
  - destruct (Hok frame eq_refl) as [Hframe Hcalls].
    unfold try_except_Exception, bind. rewrite save_eq. cbv zeta.
    unfold duckdb.insert_select.
    destruct (forallb (fun c => pd.mem c (pd.columns frame)) saved_columns).
    + cbn [fst snd logger log store calls df]. intros _.
      split; [reflexivity |]. split; [exact Hdf |]. split; [| exact Hcalls].
      unfold table_of. rewrite store_facts.connect_set_same. cbn [tables].
      rewrite store_facts.created_table_is_empty.
      rewrite store_facts.dict_get_set_same.
      rewrite Hframe, Hdf. reflexivity.
    + cbn [is_Exception fst snd logger]. intros Hlast. exfalso.
      unfold last_record in Hlast. cbn [log] in Hlast.
      rewrite rev_app_distr in Hlast. cbn in Hlast. discriminate.
  - intros Hlast. exfalso. destruct (is_Exception e).
    + unfold last_record, logger in Hlast. cbn [snd log] in Hlast.
      rewrite rev_app_distr in Hlast. cbn in Hlast. discriminate.
    + cbn [snd] in Hlast. revert Hlast.
      apply (last_record_loop st' (log st) more (INFO, MsgStarted) Hlog);
        [unfold before_completion; discriminate | exact Hmore].
  - intros Hlast. exfalso. revert Hlast.
    apply (last_record_loop st' (log st) more (INFO, MsgStarted) Hlog);
      [unfold before_completion; discriminate | exact Hmore].
Qed.

Lemma completion_record_means_published_witness :
  let server := Samples.server_with [Samples.edit "A" "u" 1] in
  let config := Some (mkApiConfig Samples.api_url 500 43200) in
  let st :=
    mkState IvWikipediaData._create_empty_dataframe [] [(INFO, MsgCompleted)]
      [("wikipedia.db",
        mkDatabase ["iv"] [("iv.wiki_edits", [[Some (JStr "old")]])])] in
  let out := IvWikipediaData.pipeline server Samples.no_other 5 config
               "2024-10-31" "wikipedia.db" "wiki_edits" st in
  let merged :=
    fold_left pd.concat
      (fst (Run.batches server Samples.no_other (effective config) 0
              (Run.planned (effective config) 5 "2024-10-31")))
      IvWikipediaData._create_empty_dataframe in
  fst out = Ok tt
  /\ df (snd out) = merged
  /\ table_of (store (snd out)) "wikipedia.db" ("iv" ++ "." ++ "wiki_edits")
     = Some (projected merged)
  /\ calls (snd out)
     = map (Run.params_of (effective config))
         (Run.planned (effective config) 5 "2024-10-31").
Proof.
  intros server config st out merged.
  apply (completion_record_means_published server Samples.no_other 5 config
           "2024-10-31" "wikipedia.db" "wiki_edits" st).
  vm_compute. reflexivity.
Defined.
